(** * AI Study Buddy: a shallow embedding of [app.py]

    [app.py] is a Streamlit script.  Every run of the script executes it
    top to bottom: the sidebar (action radio, model catalog, model
    selectbox), the input section (text area, image upload) and, when the
    "Start Processing" button was clicked, the request handler.

    The embedding keeps the control flow of the script and makes its
    effects explicit:
    - calls into Streamlit and into the generative-AI client are recorded
      in order as a list of [event]s;
    - Python exceptions and [st.stop()] are outcomes of a small
      writer/exception monad, [script];
    - the answers of the outside world (model listing, model
      construction, content generation, image decoding) are the fields of
      a [World] record, so every theorem quantifies over all of them.

    Layout-only calls ([st.title], [st.write], [st.header], [st.divider],
    [st.columns]) leave no event. *)

From Stdlib Require Import String Ascii List Arith ZArith Lia Bool.
Import ListNotations.
Local Open Scope string_scope.
Local Open Scope list_scope.

(** ** Python strings

    A character of the model stands for one code point of the Python
    string; the operations the script uses (length, slicing, search and
    replace) never look inside a character. *)

Module PyStr.

(** [len(s)] as a Python integer. *)
Definition len (s : string) : Z := Z.of_nat (String.length s).

(** Truthiness of a string: only the empty string is falsy. *)
Definition truthy (s : string) : bool :=
  match s with
  | EmptyString => false
  | String _ _ => true
  end.

(** The first [n] characters of [s]; all of [s] when it is shorter. *)
Fixpoint take (n : nat) (s : string) : string :=
  match n, s with
  | O, _ => EmptyString
  | S _, EmptyString => EmptyString
  | S k, String c r => String c (take k r)
  end.

(** The slice [s[:n]] for a non-negative stop index [n]. *)
Definition slice_to (n : Z) (s : string) : string := take (Z.to_nat n) s.

(** [s.replace(old, new)] for a non-empty [old]: scan left to right,
    replace each occurrence and resume after it.  [skip] counts the
    characters of a matched occurrence that are still to be dropped. *)
Fixpoint replace_from (skip : nat) (old new s : string) : string :=
  match s with
  | EmptyString => EmptyString
  | String c r =>
      match skip with
      | S k => replace_from k old new r
      | O =>
          if String.prefix old s
          then new ++ replace_from (String.length old - 1) old new r
          else String c (replace_from O old new r)
      end
  end.

Definition replace (old new s : string) : string := replace_from O old new s.

(** [c in s] for a character. *)
Fixpoint has_char (c : ascii) (s : string) : bool :=
  match s with
  | EmptyString => false
  | String d r => Ascii.eqb c d || has_char c r
  end.

(** The double quote character. *)
Definition dquote : ascii := ascii_of_nat 34.

(** [str.isprintable] on the code points 0 to 255: the controls (below
    32 and 127 to 159), the no-break space 160 and the soft hyphen 173
    are not printable. *)
Definition printable (c : ascii) : bool :=
  let n := nat_of_ascii c in
  if Nat.ltb n 32 then false
  else if Nat.ltb n 127 then true
  else if Nat.ltb n 161 then false
  else negb (Nat.eqb n 173).

Definition hexdigit (n : nat) : ascii :=
  nth n (list_ascii_of_string "0123456789abcdef") "0"%char.

(** One character of [repr(s)]: the quote in use and the backslash are
    escaped, tab, newline and carriage return have their letters, any
    other unprintable character is a two-digit hexadecimal escape. *)
Definition repr_char (quote c : ascii) : string :=
  let n := nat_of_ascii c in
  if Ascii.eqb c quote || Ascii.eqb c "\"
  then String "\" (String c EmptyString)
  else if Nat.eqb n 9 then "\t"
  else if Nat.eqb n 10 then "\n"
  else if Nat.eqb n 13 then "\r"
  else if printable c then String c EmptyString
  else String "\" (String "x"
         (String (hexdigit (n / 16))
            (String (hexdigit (n mod 16)) EmptyString))).

Fixpoint repr_body (quote : ascii) (s : string) : string :=
  match s with
  | EmptyString => EmptyString
  | String c r => repr_char quote c ++ repr_body quote r
  end.

(** [repr(s)]: single quotes, unless [s] has a single quote and no
    double quote. *)
Definition repr (s : string) : string :=
  let quote :=
    if has_char "'" s && negb (has_char dquote s) then dquote else "'"%char in
  String quote (repr_body quote s ++ String quote EmptyString).

(** [x in xs] for a list of strings. *)
Definition contains (x : string) (xs : list string) : bool :=
  existsb (String.eqb x) xs.

End PyStr.

(** ** Exceptions *)

(** An exception of class [Exception] (or a subclass); [msg] is what
    [str(e)] and the f-string [{e}] produce. *)
Inductive exn : Type := Exception (msg : string).

Definition str_of_exn (e : exn) : string :=
  match e with Exception msg => msg end.

(** ** Data *)

(** The three options of the "Select Action" radio. *)
Inductive Action : Type := ExplainConcept | GenerateQuiz | MakeFlashcards.

(** The string [st.radio] returns for each option. *)
Definition label (a : Action) : string :=
  match a with
  | ExplainConcept => "Explain Concept"
  | GenerateQuiz => "Generate Quiz"
  | MakeFlashcards => "Make Flashcards"
  end.

(** A model record as the provider lists it. *)
Record ModelInfo : Type := {
  name : string;
  supported_generation_methods : list string
}.

(** The dictionary [{'full_name': ..., 'display_name': ...}]. *)
Record ModelDescriptor : Type := {
  full_name : string;
  display_name : string
}.

(** What iterating [genai.list_models()] does: it yields records one by
    one and then either is exhausted or raises. *)
Inductive listing : Type :=
| Exhausted
| Fails (e : exn)
| Yields (model : ModelInfo) (rest : listing).

Fixpoint listing_of_list (ms : list ModelInfo) : listing :=
  match ms with
  | [] => Exhausted
  | m :: rest => Yields m (listing_of_list rest)
  end.

(** A listing that yields [ms] and then raises [e]. *)
Fixpoint failing_listing (ms : list ModelInfo) (e : exn) : listing :=
  match ms with
  | [] => Fails e
  | m :: rest => Yields m (failing_listing rest e)
  end.

(** How a piece of the script ends: with a value, with an exception
    that [except Exception] catches, or with [st.stop()], whose
    exception derives from [BaseException] and is caught only by a bare
    [except:]. *)
Inductive outcome (A : Type) : Type :=
| Returns (a : A)
| Raises (e : exn)
| Stops.
Arguments Returns {A} a.
Arguments Raises {A} e.
Arguments Stops {A}.

Section Program.

(** Handles of the client library: a constructed [GenerativeModel], a
    decoded [PIL.Image], an uploaded file. *)
Context {Model Image UploadedFile : Type}.

(** One element of the list handed to [generate_content]. *)
Inductive part : Type :=
| PText (s : string)
| PImage (img : Image).

(** The response object; the script only reads its [text], which is
    modelled as a plain field.  A response whose text cannot be read
    (the accessor raises) is outside the model. *)
Record Response : Type := { text : string }.

(** The outside world of one run. *)
Record World : Type := {
  list_models : listing;
  GenerativeModel : string -> exn + Model;
  generate_content : Model -> list part -> exn + Response;
  Image_open : UploadedFile -> exn + Image;
  st_image : Image -> exn + unit
}.

(** Observable effects, in program order. *)
Inductive event : Type :=
| CallListModels
| CallGenerativeModel (model_name : string)
| CallGenerateContent (model : Model) (final_input : list part)
| StError (msg : string)
| StWarning (msg : string)
| StInfo (msg : string)
| StSidebarSuccess (msg : string)
| StSpinner (msg : string)
| StSubheader (msg : string)
| StMarkdown (body : string)
| StImage (img : Image).

(** ** The script monad *)

Definition script (A : Type) : Type := (list event * outcome A)%type.

Definition trace {A} (m : script A) : list event := fst m.
Definition result {A} (m : script A) : outcome A := snd m.

Definition ret {A} (a : A) : script A := ([], Returns a).

Definition bind {A B} (m : script A) (k : A -> script B) : script B :=
  match result m with
  | Returns a => (trace m ++ trace (k a), result (k a))
  | Raises e => (trace m, Raises e)
  | Stops => (trace m, Stops)
  end.

Definition emit (ev : event) : script unit := ([ev], Returns tt).
Definition raise {A} (e : exn) : script A := ([], Raises e).
Definition st_stop {A} : script A := ([], Stops).

(** The answer of an external call. *)
Definition lift {A} (r : exn + A) : script A :=
  match r with
  | inl e => raise e
  | inr a => ret a
  end.

(** [try: body  except Exception as e: handler e]. *)
Definition try_except {A} (body : script A) (handler : exn -> script A)
  : script A :=
  match result body with
  | Returns a => (trace body, Returns a)
  | Raises e => (trace body ++ trace (handler e), result (handler e))
  | Stops => (trace body, Stops)
  end.

(** [try: body  except: handler], which also catches [st.stop()]. *)
Definition try_except_bare {A} (body : script A) (handler : script A)
  : script A :=
  match result body with
  | Returns a => (trace body, Returns a)
  | _ => (trace body ++ trace handler, result handler)
  end.

Notation "x <- m ;; k" := (bind m (fun x => k))
  (at level 61, m at next level, right associativity).
Notation "m ;; k" := (bind m (fun _ => k))
  (at level 61, right associativity).

Variable w : World.

(** ** Model catalog fetcher (lines 19-36) *)

(** Line 28: [model.name.replace('models/', '')]. *)
Definition display_name_of (model_name : string) : string :=
  PyStr.replace "models/" "" model_name.

(** The [for model in models] loop with its accumulator. *)
Fixpoint collect_models (models : listing)
         (valid_models : list ModelDescriptor)
  : script (list ModelDescriptor) :=
  match models with
  | Exhausted => ret valid_models
  | Fails e => raise e
  | Yields model rest =>
      if PyStr.contains "generateContent"
                        (supported_generation_methods model)
      then collect_models rest
             (valid_models ++
              [ {| full_name := name model;
                   display_name := display_name_of (name model) |} ])
      else collect_models rest valid_models
  end.

(** The function is decorated with [st.cache_data]: a later run may
    replay the stored return value instead of listing again.  A run is
    described here by the listing its catalog came from. *)
Definition get_available_models : script (list ModelDescriptor) :=
  try_except
    (emit CallListModels ;;
     collect_models (list_models w) [])
    (fun e =>
       emit (StError ("Error fetching models: " ++ str_of_exn e)) ;;
       ret []).

(** ** Sidebar (lines 39-58) *)

(** [st.selectbox(label, options, index=0)]: the option the user
    picked; the first option when nothing (valid) was picked. *)
Definition selectbox (options : list string) (pick : nat) : string :=
  nth pick options (nth 0 options "").

(** Truthiness of a list. *)
Definition nonempty {A} (l : list A) : bool :=
  match l with
  | [] => false
  | _ :: _ => true
  end.

Definition model_settings (available_models : list ModelDescriptor)
           (pick : nat) : script string :=
  if nonempty available_models then
    let model_options := map display_name available_models in
    ret (selectbox model_options pick)
  else
    emit (StWarning "No models found. Using default model name.") ;;
    ret "gemini-pro".

(** ** Input section (lines 63-70) *)

(** Binds [img] exactly when an image was uploaded.  [Image.open] only
    reads the header; [st.image] decodes the picture and can raise as
    well.  Neither call is inside a [try]. *)
Definition input_section (image_input : option UploadedFile)
  : script (option Image) :=
  match image_input with
  | Some file =>
      img <- lift (Image_open w file) ;;
      lift (st_image w img) ;;
      emit (StImage img) ;;
      ret (Some img)
  | None => ret None
  end.

(** ** Request dispatcher (lines 73-130) *)

(** Lines 82-85: [next(m['full_name'] for m in available_models if
    m['display_name'] == selected_model)]; an exhausted generator
    raises [StopIteration], whose message is empty. *)
Fixpoint next_full_name (available_models : list ModelDescriptor)
         (selected_model : string) : script string :=
  match available_models with
  | [] => raise (Exception "")
  | m :: rest =>
      if String.eqb (display_name m) selected_model
      then ret (full_name m)
      else next_full_name rest selected_model
  end.

Definition new_GenerativeModel (model_name : string) : script Model :=
  emit (CallGenerativeModel model_name) ;;
  lift (GenerativeModel w model_name).

Definition model_names_to_try : list string :=
  [ "gemini-1.5-flash"; "gemini-1.5-pro"; "gemini-1.0-pro"; "gemini-pro" ].

(** Lines 95-102: the loop over the candidate names.  [break] leaves
    the loop with [model] set; [continue] goes to the next name; a loop
    that runs out leaves [model = None]. *)
Fixpoint try_model_names (names : list string) : script (option Model) :=
  match names with
  | [] => ret None
  | model_name :: rest =>
      try_except_bare
        (model <- new_GenerativeModel model_name ;;
         emit (StSidebarSuccess ("Using model: " ++ model_name)) ;;
         ret (Some model))
        (try_model_names rest)
  end.

(** Lines 80-106. *)
Definition select_model (available_models : list ModelDescriptor)
           (selected_model : string) : script Model :=
  if nonempty available_models then
    selected_full <- next_full_name available_models selected_model ;;
    new_GenerativeModel selected_full
  else
    model <- try_model_names model_names_to_try ;;
    match model with
    | Some m => ret m
    | None =>
        emit (StError "Could not find any working model. Please check your API key and permissions.") ;;
        st_stop
    end.

Definition explain_instruction : string :=
  "Summarize this content into easy bullet points and explain complex terms simply.".
Definition quiz_instruction : string :=
  "Create 5 multiple choice questions with answers based on this content.".
Definition flashcards_instruction : string :=
  "Create 5 Question & Answer pairs from this content.".

(** Lines 108-112. *)
Definition prompts : list (string * string) :=
  [ ("Explain Concept", explain_instruction);
    ("Generate Quiz", quiz_instruction);
    ("Make Flashcards", flashcards_instruction) ].

(** [d[key]]; a missing key raises [KeyError], whose message is
    [repr(key)]. *)
Fixpoint getitem (d : list (string * string)) (key : string)
  : script string :=
  match d with
  | [] => raise (Exception (PyStr.repr key))
  | (k, v) :: rest => if String.eqb k key then ret v else getitem rest key
  end.

(** Line 117. *)
Definition truncate (text_input : string) : string :=
  if (PyStr.len text_input >? 10000)%Z
  then PyStr.slice_to 10000 text_input
  else text_input.

(** Lines 114-120.  [img] is the value the input section bound: it is
    [Some] exactly when [image_input] is truthy, so the test
    [if image_input] is the test on [img]. *)
Definition build_final_input (choice : string) (text_input : string)
           (img : option Image) : script (list part) :=
  instruction <- getitem prompts choice ;;
  let final_input := [PText instruction] in
  let final_input :=
    if PyStr.truthy text_input
    then final_input ++ [PText (truncate text_input)]
    else final_input in
  let final_input :=
    match img with
    | Some i => final_input ++ [PImage i]
    | None => final_input
    end in
  ret final_input.

Definition call_generate_content (model : Model) (final_input : list part)
  : script Response :=
  emit (CallGenerateContent model final_input) ;;
  lift (generate_content w model final_input).

(** The body of the [try] block, lines 79-126. *)
Definition process (choice : Action)
           (available_models : list ModelDescriptor)
           (selected_model text_input : string) (img : option Image)
  : script unit :=
  model <- select_model available_models selected_model ;;
  final_input <- build_final_input (label choice) text_input img ;;
  response <- call_generate_content model final_input ;;
  emit (StSubheader "Result") ;;
  emit (StMarkdown (text response)).

(** Line 74: both inputs falsy ([img] standing for [image_input], see
    [build_final_input]). *)
Definition missing_input (text_input : string) (img : option Image)
  : bool :=
  negb (PyStr.truthy text_input) &&
  negb (match img with Some _ => true | None => false end).

(** The handler of the "Start Processing" button, lines 74-130. *)
Definition dispatch (choice : Action)
           (available_models : list ModelDescriptor)
           (selected_model text_input : string) (img : option Image)
  : script unit :=
  if missing_input text_input img then
    emit (StError "Please provide text or an image first.")
  else
    emit (StSpinner "Processing... (this may take 10-30 seconds)") ;;
    try_except
      (process choice available_models selected_model text_input img)
      (fun e =>
         emit (StError ("Error: " ++ str_of_exn e)) ;;
         emit (StInfo "Try selecting a different model from the sidebar dropdown.")).

(** ** One run of the script *)

(** What the user did on the page before this run. *)
Record Inputs : Type := {
  choice : Action;
  model_pick : nat;
  text_input : string;
  image_input : option UploadedFile;
  start_processing : bool
}.

Definition app (ui : Inputs) : script unit :=
  available_models <- get_available_models ;;
  selected_model <- model_settings available_models (model_pick ui) ;;
  img <- input_section (image_input ui) ;;
  if start_processing ui then
    dispatch (choice ui) available_models selected_model
             (text_input ui) img
  else ret tt.

(** ** Reading a trace *)

Definition generate_calls (t : list event) : list (Model * list part) :=
  flat_map (fun ev => match ev with
                      | CallGenerateContent m p => [(m, p)]
                      | _ => []
                      end) t.

Definition model_calls (t : list event) : list string :=
  flat_map (fun ev => match ev with
                      | CallGenerativeModel n => [n]
                      | _ => []
                      end) t.

Definition errors (t : list event) : list string :=
  flat_map (fun ev => match ev with
                      | StError m => [m]
                      | _ => []
                      end) t.

Definition infos (t : list event) : list string :=
  flat_map (fun ev => match ev with
                      | StInfo m => [m]
                      | _ => []
                      end) t.

Definition announcements (t : list event) : list string :=
  flat_map (fun ev => match ev with
                      | StSidebarSuccess m => [m]
                      | _ => []
                      end) t.

(** The texts shown by [st.markdown]. *)
Definition markdowns (t : list event) : list string :=
  flat_map (fun ev => match ev with
                      | StMarkdown body => [body]
                      | _ => []
                      end) t.

(** Everything shown in the result column. *)
Definition rendered (t : list event) : list event :=
  filter (fun ev => match ev with
                    | StSubheader _ | StMarkdown _ => true
                    | _ => false
                    end) t.

(** An event of model selection that is neither an error nor a call of
    the generation endpoint nor part of the result column. *)
Definition probe (ev : event) : bool :=
  match ev with
  | CallGenerativeModel _ | StSidebarSuccess _ => true
  | _ => false
  end.

(** What the [except Exception] clause of the handler shows. *)
Definition report (e : exn) : list event :=
  [StError ("Error: " ++ str_of_exn e);
   StInfo "Try selecting a different model from the sidebar dropdown."].

(** The value the sidebar leaves in [selected_model]. *)
Definition selected (available_models : list ModelDescriptor) (pick : nat)
  : string :=
  if nonempty available_models
  then selectbox (map display_name available_models) pick
  else "gemini-pro".

End Program.

(** ** Vocabulary of the statements *)

(** The fixed instruction of each action. *)
Definition instruction (a : Action) : string :=
  match a with
  | ExplainConcept => explain_instruction
  | GenerateQuiz => quiz_instruction
  | MakeFlashcards => flashcards_instruction
  end.

(** A listed model advertises content generation. *)
Definition supports_generation (m : ModelInfo) : bool :=
  PyStr.contains "generateContent" (supported_generation_methods m).

(** The catalog entry made from a listed model. *)
Definition descriptor_of (m : ModelInfo) : ModelDescriptor :=
  {| full_name := name m; display_name := display_name_of (name m) |}.

(** An external call answered with an exception. *)
Definition fails {A} (r : exn + A) : bool :=
  match r with
  | inl _ => true
  | inr _ => false
  end.

(** No character of [s] is a slash. *)
Fixpoint no_slash (s : string) : bool :=
  match s with
  | EmptyString => true
  | String c r => negb (Ascii.eqb c "/") && no_slash r
  end.

Section Payload.

Context {Image : Type}.

Definition text_part (text_input : string) : list (@part Image) :=
  if PyStr.truthy text_input then [PText (truncate text_input)] else [].

Definition image_part (img : option Image) : list (@part Image) :=
  match img with
  | Some i => [PImage i]
  | None => []
  end.

(** The ordered payload: instruction, then text, then image. *)
Definition payload_of (choice : Action) (text_input : string)
           (img : option Image) : list (@part Image) :=
  PText (instruction choice) :: text_part text_input ++ image_part img.

End Payload.

Definition validation_message : string :=
  "Please provide text or an image first.".
Definition no_model_message : string :=
  "Could not find any working model. Please check your API key and permissions.".
Definition hint_message : string :=
  "Try selecting a different model from the sidebar dropdown.".
Definition spinner_message : string :=
  "Processing... (this may take 10-30 seconds)".

(** ** Concrete worlds

    Model handles are the names they were built from, images and
    uploads are numbered. *)

Module Examples.

Definition W : Type := @World string nat nat.

Definition flash : ModelInfo :=
  {| name := "models/gemini-1.5-flash";
     supported_generation_methods := ["generateContent"; "countTokens"] |}.
Definition embedding : ModelInfo :=
  {| name := "models/embedding-001";
     supported_generation_methods := ["embedContent"] |}.
Definition pro : ModelInfo :=
  {| name := "models/gemini-1.5-pro";
     supported_generation_methods := ["countTokens"; "generateContent"] |}.

Definition echo (m : string) (_ : list (@part nat)) : exn + Response :=
  inr {| text := "answer of " ++ m |}.

(** Everything works. *)
Definition healthy : W :=
  {| list_models := listing_of_list [flash; embedding; pro];
     GenerativeModel := fun n => inr n;
     generate_content := echo;
     Image_open := fun f => inr f;
     st_image := fun _ => inr tt |}.

(** The listing breaks after the first page and no model can be built. *)
Definition offline : W :=
  {| list_models := failing_listing [flash] (Exception "503 unavailable");
     GenerativeModel := fun _ => inl (Exception "503 unavailable");
     generate_content := echo;
     Image_open := fun f => inr f;
     st_image := fun _ => inr tt |}.

(** The listing breaks; the first candidate name is unknown, the others
    are fine. *)
Definition flash_retired : W :=
  {| list_models := Fails (Exception "timeout");
     GenerativeModel := fun n =>
       if String.eqb n "gemini-1.5-flash"
       then inl (Exception "404 model not found")
       else inr n;
     generate_content := echo;
     Image_open := fun f => inr f;
     st_image := fun _ => inr tt |}.

(** The listing breaks, the first candidate name is unknown and the
    generation is refused. *)
Definition flash_retired_over_quota : W :=
  {| list_models := Fails (Exception "timeout");
     GenerativeModel := fun n =>
       if String.eqb n "gemini-1.5-flash"
       then inl (Exception "404 model not found")
       else inr n;
     generate_content := fun _ _ => inl (Exception "429 quota exceeded");
     Image_open := fun f => inr f;
     st_image := fun _ => inr tt |}.

(** Models are listed and built, generation is refused. *)
Definition over_quota : W :=
  {| list_models := listing_of_list [flash; embedding; pro];
     GenerativeModel := fun n => inr n;
     generate_content := fun _ _ => inl (Exception "429 quota exceeded");
     Image_open := fun f => inr f;
     st_image := fun _ => inr tt |}.

(** The selected model cannot be built. *)
Definition no_permission : W :=
  {| list_models := listing_of_list [flash; embedding; pro];
     GenerativeModel := fun _ => inl (Exception "403 permission denied");
     generate_content := echo;
     Image_open := fun f => inr f;
     st_image := fun _ => inr tt |}.

Definition catalog : list ModelDescriptor :=
  [descriptor_of flash; descriptor_of pro].

Definition photosynthesis : string :=
  "Photosynthesis converts light into chemical energy".

Fixpoint copies (n : nat) (c : ascii) : string :=
  match n with
  | O => EmptyString
  | S k => String c (copies k c)
  end.

(** A text of 10,003 characters. *)
Definition long_text : string :=
  "abc" ++ copies (Z.to_nat 10000) "x".

Definition click (a : Action) (pick : nat) (t : string) (f : option nat)
  : @Inputs nat :=
  {| choice := a; model_pick := pick; text_input := t;
     image_input := f; start_processing := true |}.

(** A text of exactly 10,000 characters. *)
Definition full_text : string := copies (Z.to_nat 10000) "x".

(** Upload 13 is not an image, upload 14 is a truncated image that
    opens but cannot be decoded; everything else works. *)
Definition corrupt_upload : W :=
  {| list_models := listing_of_list [flash; embedding; pro];
     GenerativeModel := fun n => inr n;
     generate_content := echo;
     Image_open := fun f =>
       if Nat.eqb f 13
       then inl (Exception "cannot identify image file")
       else inr f;
     st_image := fun i =>
       if Nat.eqb i 14
       then inl (Exception "image file is truncated")
       else inr tt |}.

End Examples.

(** * Properties *)

(** ** Python strings *)

Lemma take_length n s :
  String.length (PyStr.take n s) = Nat.min n (String.length s).
Proof.
  revert s; induction n as [|n IH]; intros [|c r]; simpl; auto.
Qed.

Lemma take_is_prefix n s :
  exists rest, s = (PyStr.take n s ++ rest)%string.
Proof.
  revert s; induction n as [|n IH]; intros s.
  - exists s. destruct s; reflexivity.
  - destruct s as [|c r].
    + exists "". reflexivity.
    + destruct (IH r) as [rest Hrest].
      exists rest. simpl. rewrite <- Hrest. reflexivity.
Qed.

Lemma truncate_len_le s : (PyStr.len (truncate s) <= 10000)%Z.
Proof.
  unfold truncate.
  destruct (Z.gtb_spec (PyStr.len s) 10000) as [Hlong|Hshort]; [|exact Hshort].
  unfold PyStr.slice_to, PyStr.len. rewrite take_length. lia.
Qed.

Lemma truncate_long s :
  (10000 < PyStr.len s)%Z ->
  PyStr.len (truncate s) = 10000%Z /\ exists rest, s = (truncate s ++ rest)%string.
Proof.
  intros Hlong. unfold truncate.
  destruct (Z.gtb_spec (PyStr.len s) 10000) as [_|Hshort]; [|lia].
  split.
  - unfold PyStr.slice_to, PyStr.len in *. rewrite take_length. lia.
  - apply take_is_prefix.
Qed.

Lemma truncate_short s :
  (PyStr.len s <= 10000)%Z -> truncate s = s.
Proof.
  intros Hshort. unfold truncate.
  destruct (Z.gtb_spec (PyStr.len s) 10000); [lia|reflexivity].
Qed.

Example replace_prefix :
  PyStr.replace "models/" "" "models/gemini-1.5-flash" = "gemini-1.5-flash".
Proof. reflexivity. Qed.

Example replace_every_occurrence :
  PyStr.replace "models/" "" "tunedModels/models/x-models/" = "tunedModels/x-".
Proof. reflexivity. Qed.

Example replace_single_pass :
  PyStr.replace "models/" "" "modelmodels/s/" = "models/".
Proof. reflexivity. Qed.

Example repr_plain : PyStr.repr "Study Plan" = "'Study Plan'".
Proof. reflexivity. Qed.

Example repr_single_quote :
  PyStr.repr "it's"
  = String PyStr.dquote ("it's" ++ String PyStr.dquote EmptyString).
Proof. reflexivity. Qed.

Example repr_backslash_and_newline :
  PyStr.repr (String "a" (String "\" (String (ascii_of_nat 10) "b")))
  = "'a\\\nb'".
Proof. reflexivity. Qed.

Example replace_with_text :
  PyStr.replace "ab" "-" "abcabab" = "-c--".
Proof. reflexivity. Qed.

Section Properties.

Context {Model Image UploadedFile : Type}.
Variable w : @World Model Image UploadedFile.

Local Abbreviation event := (@event Model Image).
Local Abbreviation script := (@script Model Image).

(** ** The script monad *)

Lemma bind_returns {A B} (m : script A) (k : A -> script B) a :
  result m = Returns a ->
  bind m k = (trace m ++ trace (k a), result (k a)).
Proof. intros H. unfold bind. rewrite H. reflexivity. Qed.

Lemma bind_raises {A B} (m : script A) (k : A -> script B) e :
  result m = Raises e -> bind m k = (trace m, Raises e).
Proof. intros H. unfold bind. rewrite H. reflexivity. Qed.

Lemma bind_stops {A B} (m : script A) (k : A -> script B) :
  result m = Stops -> bind m k = (trace m, Stops).
Proof. intros H. unfold bind. rewrite H. reflexivity. Qed.

Lemma bind_emit {B} (ev : event) (k : unit -> script B) :
  bind (emit ev) k = (ev :: trace (k tt), result (k tt)).
Proof. reflexivity. Qed.

Lemma script_eta {A} (m : script A) : m = (trace m, result m).
Proof. destruct m; reflexivity. Qed.

(** ** Reading a trace *)

Lemma generate_calls_app (t u : list event) :
  generate_calls (t ++ u) = generate_calls t ++ generate_calls u.
Proof. apply flat_map_app. Qed.

Lemma model_calls_app (t u : list event) :
  model_calls (t ++ u) = model_calls t ++ model_calls u.
Proof. apply flat_map_app. Qed.

Lemma errors_app (t u : list event) :
  errors (t ++ u) = errors t ++ errors u.
Proof. apply flat_map_app. Qed.

Lemma infos_app (t u : list event) :
  infos (t ++ u) = infos t ++ infos u.
Proof. apply flat_map_app. Qed.

Lemma announcements_app (t u : list event) :
  announcements (t ++ u) = announcements t ++ announcements u.
Proof. apply flat_map_app. Qed.

Lemma rendered_app (t u : list event) :
  rendered (t ++ u) = rendered t ++ rendered u.
Proof. apply filter_app. Qed.

Lemma probes_silent (t : list event) :
  forallb probe t = true ->
  generate_calls t = [] /\ errors t = [] /\ infos t = [] /\ rendered t = [].
Proof.
  induction t as [|ev t IH]; simpl; [auto|].
  intros H. apply andb_prop in H. destruct H as [Hev Ht].
  destruct (IH Ht) as (Hg & He & Hi & Hr).
  destruct ev; simpl in *; try discriminate; auto.
Qed.

Lemma bind_ret {A B} (a : A) (k : A -> script B) : bind (ret a) k = k a.
Proof. unfold bind, ret. simpl. destruct (k a); reflexivity. Qed.

(** ** Model catalog fetcher *)

Lemma collect_models_listed ms acc :
  collect_models (listing_of_list ms) acc
  = (ret (acc ++ map descriptor_of (filter supports_generation ms)) : script _).
Proof.
  revert acc; induction ms as [|m ms IH]; intros acc; simpl.
  - rewrite app_nil_r. reflexivity.
  - unfold supports_generation at 1.
    destruct (PyStr.contains _ _); simpl.
    + rewrite IH, <- app_assoc. reflexivity.
    + apply IH.
Qed.

Lemma collect_models_failing ms e acc :
  collect_models (failing_listing ms e) acc = (raise e : script _).
Proof.
  revert acc; induction ms as [|m ms IH]; intros acc; simpl.
  - reflexivity.
  - destruct (PyStr.contains _ _); apply IH.
Qed.

(** ** Model selection *)

Lemma selectbox_in options pick :
  options <> [] -> In (selectbox options pick) options.
Proof.
  intros Hne. unfold selectbox.
  destruct (nth_in_or_default pick options (nth 0 options "")) as [Hin|Hdef].
  - exact Hin.
  - rewrite Hdef. destruct options as [|o rest]; [contradiction|].
    left. reflexivity.
Qed.

Lemma next_full_name_find ms sel :
  next_full_name ms sel
  = match find (fun d => String.eqb (display_name d) sel) ms with
    | Some d => (ret (full_name d) : script _)
    | None => raise (Exception "")
    end.
Proof.
  induction ms as [|d ms IH]; simpl; [reflexivity|].
  destruct (String.eqb (display_name d) sel); [reflexivity|exact IH].
Qed.

Lemma find_display_name ms sel :
  In sel (map display_name ms) ->
  exists d, find (fun d => String.eqb (display_name d) sel) ms = Some d.
Proof.
  induction ms as [|d ms IH]; simpl; [contradiction|].
  intros [Heq|Hin].
  - rewrite Heq, String.eqb_refl. eauto.
  - destruct (String.eqb (display_name d) sel); eauto.
Qed.

Lemma find_selected ms pick :
  nonempty ms = true ->
  exists d,
    find (fun d => String.eqb (display_name d)
                     (selectbox (map display_name ms) pick)) ms = Some d.
Proof.
  intros Hne. apply find_display_name, selectbox_in.
  destruct ms; [discriminate|]. simpl. discriminate.
Qed.

Lemma new_GenerativeModel_ok n m :
  GenerativeModel w n = inr m ->
  new_GenerativeModel w n = ([CallGenerativeModel n], Returns m).
Proof. intros H. unfold new_GenerativeModel. rewrite bind_emit, H. reflexivity. Qed.

Lemma new_GenerativeModel_fails n :
  fails (GenerativeModel w n) = true ->
  exists e, GenerativeModel w n = inl e /\
            new_GenerativeModel w n = ([CallGenerativeModel n], Raises e).
Proof.
  unfold new_GenerativeModel. rewrite bind_emit.
  destruct (GenerativeModel w n) as [e|m]; [|discriminate].
  intros _. exists e. split; reflexivity.
Qed.

Lemma try_model_names_cons_fails n rest :
  fails (GenerativeModel w n) = true ->
  try_model_names w (n :: rest)
  = (CallGenerativeModel n :: trace (try_model_names w rest),
     result (try_model_names w rest)).
Proof.
  intros Hf. destruct (new_GenerativeModel_fails n Hf) as (e & _ & Hnew).
  simpl. unfold try_except_bare.
  rewrite (bind_raises _ _ e) by (rewrite Hnew; reflexivity).
  rewrite Hnew. reflexivity.
Qed.

Lemma try_model_names_cons_ok n rest m :
  GenerativeModel w n = inr m ->
  try_model_names w (n :: rest)
  = ([CallGenerativeModel n; StSidebarSuccess ("Using model: " ++ n)],
     Returns (Some m)).
Proof.
  intros Hok. simpl. unfold try_except_bare.
  rewrite (bind_returns _ _ m) by (rewrite (new_GenerativeModel_ok _ _ Hok); reflexivity).
  rewrite (new_GenerativeModel_ok _ _ Hok). reflexivity.
Qed.

Lemma try_model_names_first pre n post m :
  forallb (fun x => fails (GenerativeModel w x)) pre = true ->
  GenerativeModel w n = inr m ->
  try_model_names w (pre ++ n :: post)
  = (map CallGenerativeModel pre ++
     [CallGenerativeModel n; StSidebarSuccess ("Using model: " ++ n)],
     Returns (Some m)).
Proof.
  intros Hpre Hok. induction pre as [|x pre IH].
  - apply try_model_names_cons_ok, Hok.
  - simpl in Hpre. apply andb_prop in Hpre. destruct Hpre as [Hx Hpre].
    change ((x :: pre) ++ n :: post) with (x :: (pre ++ n :: post)).
    rewrite (try_model_names_cons_fails _ _ Hx), (IH Hpre). reflexivity.
Qed.

Lemma try_model_names_none names :
  forallb (fun x => fails (GenerativeModel w x)) names = true ->
  try_model_names w names = (map CallGenerativeModel names, Returns None).
Proof.
  induction names as [|x names IH]; intros Hall.
  - reflexivity.
  - simpl in Hall. apply andb_prop in Hall. destruct Hall as [Hx Hall].
    rewrite (try_model_names_cons_fails _ _ Hx), (IH Hall). reflexivity.
Qed.

Lemma try_model_names_probes names :
  forallb probe (trace (try_model_names w names)) = true /\
  exists o, result (try_model_names w names) = Returns o.
Proof.
  induction names as [|x names (IHt & o & IHr)].
  - split; [reflexivity|]. exists None. reflexivity.
  - destruct (GenerativeModel w x) as [e|m] eqn:Hx.
    + rewrite try_model_names_cons_fails by (rewrite Hx; reflexivity).
      split; [exact IHt|]. exists o. exact IHr.
    + rewrite (try_model_names_cons_ok _ _ _ Hx).
      split; [reflexivity|]. exists (Some m). reflexivity.
Qed.

Lemma select_model_found ms sel d :
  find (fun d => String.eqb (display_name d) sel) ms = Some d ->
  select_model w ms sel
  = ([CallGenerativeModel (full_name d)],
     match GenerativeModel w (full_name d) with
     | inr m => Returns m
     | inl e => Raises e
     end).
Proof.
  intros Hfind. unfold select_model.
  destruct ms as [|d0 ms]; [discriminate|]. simpl nonempty. cbv iota.
  rewrite next_full_name_find, Hfind, bind_ret.
  unfold new_GenerativeModel. rewrite bind_emit.
  destruct (GenerativeModel w (full_name d)); reflexivity.
Qed.

Lemma select_model_not_found ms sel :
  nonempty ms = true ->
  find (fun d => String.eqb (display_name d) sel) ms = None ->
  select_model w ms sel = ([], Raises (Exception "")).
Proof.
  intros Hne Hfind. unfold select_model.
  rewrite Hne, next_full_name_find, Hfind. reflexivity.
Qed.

Lemma select_model_fallback sel o :
  result (try_model_names w model_names_to_try) = Returns o ->
  select_model w [] sel
  = match o with
    | Some m => (trace (try_model_names w model_names_to_try), Returns m)
    | None => (trace (try_model_names w model_names_to_try)
               ++ [StError no_model_message], Stops)
    end.
Proof.
  intros Hr. unfold select_model. simpl nonempty. cbv iota.
  rewrite (bind_returns _ _ o Hr).
  destruct o; simpl; [rewrite app_nil_r|]; reflexivity.
Qed.

(** Model selection only probes models; when it stops the script it has
    shown the no-model error last. *)
Lemma select_model_shape ms sel :
  match result (select_model w ms sel) with
  | Stops =>
      exists t, trace (select_model w ms sel) = t ++ [StError no_model_message]
                /\ forallb probe t = true
  | _ => forallb probe (trace (select_model w ms sel)) = true
  end.
Proof.
  destruct ms as [|d0 ms].
  - destruct (try_model_names_probes model_names_to_try) as (Ht & o & Hr).
    rewrite (select_model_fallback sel o Hr).
    destruct o; simpl; [exact Ht|]. eexists. split; [reflexivity|exact Ht].
  - destruct (find (fun d => String.eqb (display_name d) sel) (d0 :: ms))
      as [d|] eqn:Hfind.
    + rewrite (select_model_found _ _ _ Hfind).
      destruct (GenerativeModel w (full_name d)); reflexivity.
    + rewrite select_model_not_found by (reflexivity || exact Hfind).
      reflexivity.
Qed.

Lemma select_model_quiet ms sel :
  generate_calls (trace (select_model w ms sel)) = [] /\
  rendered (trace (select_model w ms sel)) = [] /\
  infos (trace (select_model w ms sel)) = [] /\
  errors (trace (select_model w ms sel))
  = match result (select_model w ms sel) with
    | Stops => [no_model_message]
    | _ => []
    end.
Proof.
  pose proof (select_model_shape ms sel) as Hshape.
  destruct (result (select_model w ms sel)).
  - destruct (probes_silent _ Hshape) as (Hg & He & Hi & Hr). auto.
  - destruct (probes_silent _ Hshape) as (Hg & He & Hi & Hr). auto.
  - destruct Hshape as (t & -> & Ht).
    destruct (probes_silent _ Ht) as (Hg & He & Hi & Hr).
    rewrite generate_calls_app, rendered_app, infos_app, errors_app.
    rewrite Hg, He, Hi, Hr. auto.
Qed.

(** ** Payload *)

Lemma getitem_prompts a :
  getitem prompts (label a) = (ret (instruction a) : script _).
Proof. destruct a; reflexivity. Qed.

Lemma build_final_input_payload a text_input img :
  build_final_input (label a) text_input img
  = (ret (payload_of a text_input img) : script _).
Proof.
  unfold build_final_input. rewrite getitem_prompts, bind_ret.
  unfold payload_of, text_part, image_part.
  destruct (PyStr.truthy text_input); destruct img; reflexivity.
Qed.

(** ** The body of the handler *)

Lemma process_with_model a ms sel text_input img m :
  result (select_model w ms sel) = Returns m ->
  process w a ms sel text_input img
  = match generate_content w m (payload_of a text_input img) with
    | inr r =>
        (trace (select_model w ms sel) ++
         [CallGenerateContent m (payload_of a text_input img);
          StSubheader "Result"; StMarkdown (text r)],
         Returns tt)
    | inl e =>
        (trace (select_model w ms sel) ++
         [CallGenerateContent m (payload_of a text_input img)],
         Raises e)
    end.
Proof.
  intros Hm. unfold process.
  rewrite (bind_returns _ _ m Hm), build_final_input_payload, bind_ret.
  unfold call_generate_content. rewrite bind_emit.
  destruct (generate_content w m (payload_of a text_input img));
    reflexivity.
Qed.

Lemma process_raises a ms sel text_input img e :
  result (select_model w ms sel) = Raises e ->
  process w a ms sel text_input img = (trace (select_model w ms sel), Raises e).
Proof. intros He. unfold process. apply bind_raises, He. Qed.

Lemma process_stops a ms sel text_input img :
  result (select_model w ms sel) = Stops ->
  process w a ms sel text_input img = (trace (select_model w ms sel), Stops).
Proof. intros Hs. unfold process. apply bind_stops, Hs. Qed.

Lemma dispatch_accepted a ms sel text_input img :
  missing_input text_input img = false ->
  dispatch w a ms sel text_input img
  = match result (process w a ms sel text_input img) with
    | Raises e =>
        ([StSpinner spinner_message] ++
         trace (process w a ms sel text_input img) ++ report e,
         Returns tt)
    | r => ([StSpinner spinner_message] ++
            trace (process w a ms sel text_input img), r)
    end.
Proof.
  intros Hok. unfold dispatch. rewrite Hok, bind_emit.
  unfold try_except.
  destruct (result (process w a ms sel text_input img)); reflexivity.
Qed.

(** What an accepted request shows and calls, by the way model selection
    and generation end. *)
Lemma dispatch_summary a ms sel text_input img :
  missing_input text_input img = false ->
  let d := dispatch w a ms sel text_input img in
  let p := payload_of a text_input img in
  match result (select_model w ms sel) with
  | Returns m =>
      generate_calls (trace d) = [(m, p)] /\
      match generate_content w m p with
      | inr r =>
          rendered (trace d) = [StSubheader "Result"; StMarkdown (text r)] /\
          errors (trace d) = [] /\ infos (trace d) = [] /\
          result d = Returns tt
      | inl e =>
          rendered (trace d) = [] /\
          errors (trace d) = [("Error: " ++ str_of_exn e)%string] /\
          infos (trace d) = [hint_message] /\
          result d = Returns tt
      end
  | Raises e =>
      generate_calls (trace d) = [] /\ rendered (trace d) = [] /\
      errors (trace d) = [("Error: " ++ str_of_exn e)%string] /\
      infos (trace d) = [hint_message] /\
      result d = Returns tt
  | Stops =>
      generate_calls (trace d) = [] /\ rendered (trace d) = [] /\
      errors (trace d) = [no_model_message] /\ infos (trace d) = [] /\
      result d = Stops
  end.
Proof.
  intros Hok d p. subst d p. rewrite (dispatch_accepted _ _ _ _ _ Hok).
  destruct (select_model_quiet ms sel) as (Hg & Hr & Hi & He).
  destruct (result (select_model w ms sel)) as [m|e|] eqn:Hsel.
  - rewrite (process_with_model _ _ _ _ _ _ Hsel).
    destruct (generate_content w m (payload_of a text_input img)) as [e|r];
      cbn [trace result fst snd];
      rewrite !generate_calls_app, !rendered_app, !errors_app, !infos_app,
        Hg, Hr, Hi, He;
      repeat split.
  - rewrite (process_raises _ _ _ _ _ _ Hsel).
    cbn [trace result fst snd].
    rewrite !generate_calls_app, !rendered_app, !errors_app, !infos_app,
      Hg, Hr, Hi, He.
    repeat split.
  - rewrite (process_stops _ _ _ _ _ Hsel).
    cbn [trace result fst snd].
    rewrite !generate_calls_app, !rendered_app, !errors_app, !infos_app,
      Hg, Hr, Hi, He.
    repeat split.
Qed.

Lemma dispatch_probes a ms sel text_input img :
  missing_input text_input img = false ->
  model_calls (trace (dispatch w a ms sel text_input img))
  = model_calls (trace (select_model w ms sel)) /\
  announcements (trace (dispatch w a ms sel text_input img))
  = announcements (trace (select_model w ms sel)).
Proof.
  intros Hok. rewrite (dispatch_accepted _ _ _ _ _ Hok).
  destruct (result (select_model w ms sel)) as [m|e|] eqn:Hsel.
  - rewrite (process_with_model _ _ _ _ _ _ Hsel).
    destruct (generate_content w m (payload_of a text_input img)) as [e|r];
      cbn [trace result fst snd];
      rewrite !model_calls_app, !announcements_app; simpl;
      rewrite !app_nil_r; split; reflexivity.
  - rewrite (process_raises _ _ _ _ _ _ Hsel). cbn [trace result fst snd].
    rewrite !model_calls_app, !announcements_app; simpl.
    rewrite !app_nil_r; split; reflexivity.
  - rewrite (process_stops _ _ _ _ _ Hsel). cbn [trace result fst snd].
    rewrite !model_calls_app, !announcements_app; simpl.
    split; reflexivity.
Qed.

Lemma model_calls_map names :
  model_calls (map (@CallGenerativeModel Model Image) names) = names /\
  announcements (map (@CallGenerativeModel Model Image) names) = [].
Proof.
  induction names as [|n names [IHm IHa]]; simpl; [auto|].
  fold (@model_calls Model Image) (@announcements Model Image).
  rewrite IHm, IHa. auto.
Qed.

(** ** One run of the script *)

Lemma listing_cases l :
  (exists ms, l = listing_of_list ms) \/
  (exists ms e, l = failing_listing ms e).
Proof.
  induction l as [|e|m rest [(ms & ->)|(ms & e & ->)]].
  - left. exists []. reflexivity.
  - right. exists [], e. reflexivity.
  - left. exists (m :: ms). reflexivity.
  - right. exists (m :: ms), e. reflexivity.
Qed.

Lemma get_available_models_listed ms :
  list_models w = listing_of_list ms ->
  get_available_models w
  = ([CallListModels],
     Returns (map descriptor_of (filter supports_generation ms))).
Proof.
  intros Hl. unfold get_available_models.
  rewrite Hl, bind_emit, collect_models_listed. reflexivity.
Qed.

Lemma get_available_models_failing ms e :
  list_models w = failing_listing ms e ->
  get_available_models w
  = ([CallListModels; StError ("Error fetching models: " ++ str_of_exn e)],
     Returns []).
Proof.
  intros Hl. unfold get_available_models.
  rewrite Hl, bind_emit, collect_models_failing. reflexivity.
Qed.

Lemma get_available_models_quiet :
  model_calls (trace (get_available_models w)) = [] /\
  announcements (trace (get_available_models w)) = [] /\
  generate_calls (trace (get_available_models w)) = [].
Proof.
  destruct (listing_cases (list_models w)) as [(ms & Hl)|(ms & e & Hl)].
  - rewrite (get_available_models_listed _ Hl). repeat split.
  - rewrite (get_available_models_failing _ _ Hl). repeat split.
Qed.

Lemma model_settings_eq ms pick :
  model_settings ms pick
  = ((if nonempty ms then []
      else [StWarning "No models found. Using default model name."]),
     Returns (selected ms pick)) :> script _.
Proof. destruct ms; reflexivity. Qed.

Lemma input_section_returns file img :
  result (input_section w file) = Returns img ->
  trace (input_section w file)
  = match img with
    | Some i => [StImage i]
    | None => []
    end.
Proof.
  destruct file as [f|]; unfold input_section.
  - unfold bind at 1. destruct (Image_open w f) as [e|i]; simpl.
    + discriminate.
    + unfold bind at 1 2. destruct (st_image w i) as [e|[]]; simpl.
      * discriminate.
      * intros H. inversion H. reflexivity.
  - simpl. intros H. inversion H. reflexivity.
Qed.

Lemma app_clicked ui ms img :
  result (get_available_models w) = Returns ms ->
  result (input_section w (image_input ui)) = Returns img ->
  start_processing ui = true ->
  app w ui
  = (trace (get_available_models w) ++
     trace (model_settings ms (model_pick ui) : script _) ++
     trace (input_section w (image_input ui)) ++
     trace (dispatch w (choice ui) ms (selected ms (model_pick ui))
                     (text_input ui) img),
     result (dispatch w (choice ui) ms (selected ms (model_pick ui))
                      (text_input ui) img)).
Proof.
  intros Hms Himg Hclick. unfold app.
  rewrite (bind_returns _ _ ms Hms). cbv beta.
  rewrite (bind_returns (model_settings ms (model_pick ui)) _
                        (selected ms (model_pick ui)))
    by (rewrite model_settings_eq; reflexivity).
  cbv beta. rewrite (bind_returns _ _ img Himg). cbv beta.
  rewrite Hclick. reflexivity.
Qed.

(** The page-level part of a run builds no model and announces none. *)
Lemma app_probes ui ms img :
  result (get_available_models w) = Returns ms ->
  result (input_section w (image_input ui)) = Returns img ->
  start_processing ui = true ->
  missing_input (text_input ui) img = false ->
  model_calls (trace (app w ui))
  = model_calls (trace (select_model w ms (selected ms (model_pick ui)))) /\
  announcements (trace (app w ui))
  = announcements (trace (select_model w ms (selected ms (model_pick ui)))) /\
  generate_calls (trace (app w ui))
  = generate_calls (trace (dispatch w (choice ui) ms
                                    (selected ms (model_pick ui))
                                    (text_input ui) img)).
Proof.
  intros Hms Himg Hclick Hok.
  rewrite (app_clicked _ _ _ Hms Himg Hclick). cbn [trace fst].
  destruct get_available_models_quiet as (Hm & Ha & Hg).
  destruct (dispatch_probes (choice ui) ms (selected ms (model_pick ui))
                            (text_input ui) img Hok) as [Hdm Hda].
  rewrite !model_calls_app, !announcements_app, !generate_calls_app.
  rewrite Hm, Ha, Hg, Hdm, Hda, (input_section_returns _ _ Himg),
    model_settings_eq.
  cbn [trace fst].
  destruct (nonempty ms); destruct img; repeat split.
Qed.

(** ** The request dispatcher *)

Lemma truthy_of_len s : (0 < PyStr.len s)%Z -> PyStr.truthy s = true.
Proof. destruct s; [unfold PyStr.len; simpl; lia|reflexivity]. Qed.

Lemma missing_input_text s (img : option Image) :
  PyStr.truthy s = true -> missing_input s img = false.
Proof. intros H. unfold missing_input. rewrite H. reflexivity. Qed.

Lemma in_errors msg (t : list event) : In (StError msg) t -> In msg (errors t).
Proof.
  intros Hin. unfold errors. apply in_flat_map.
  exists (StError msg). split; [exact Hin|left; reflexivity].
Qed.

(** C1: when both the text and the image are absent the dispatcher shows
    the validation error inline and does nothing else; in particular it
    builds no model and issues no generation call. *)
Theorem missing_input_rejected a ms sel :
  dispatch w a ms sel "" None
  = ([StError "Please provide text or an image first."], Returns tt) /\
  generate_calls (trace (dispatch w a ms sel "" None)) = [] /\
  model_calls (trace (dispatch w a ms sel "" None)) = [].
Proof. repeat split. Qed.

(** C2: for a text input longer than 10,000 characters the text part of
    the payload is the prefix of the input that is 10,000 characters long,
    and every generation call of the request carries that payload. *)
Theorem long_text_truncated a ms sel text_input img :
  (10000 < PyStr.len text_input)%Z ->
  exists sent rest,
    text_input = (sent ++ rest)%string /\
    PyStr.len sent = 10000%Z /\
    build_final_input (label a) text_input img
    = (ret (PText (instruction a) :: PText sent :: image_part img)
       : script _) /\
    generate_calls (trace (dispatch w a ms sel text_input img))
    = match result (select_model w ms sel) with
      | Returns m =>
          [(m, PText (instruction a) :: PText sent :: image_part img)]
      | _ => []
      end.
Proof.
  intros Hlong.
  destruct (truncate_long _ Hlong) as [Hlen [rest Hrest]].
  assert (Htruthy : PyStr.truthy text_input = true)
    by (apply truthy_of_len; lia).
  assert (Hpayload : payload_of a text_input img
                     = PText (instruction a) :: PText (truncate text_input)
                         :: image_part img).
  { unfold payload_of, text_part. rewrite Htruthy. reflexivity. }
  exists (truncate text_input), rest. repeat split.
  - exact Hrest.
  - exact Hlen.
  - rewrite build_final_input_payload, Hpayload. reflexivity.
  - pose proof (dispatch_summary a ms sel text_input img
                  (missing_input_text _ _ Htruthy)) as Hsum.
    cbv zeta in Hsum. rewrite Hpayload in Hsum.
    destruct (result (select_model w ms sel)); apply Hsum.
Qed.

(** C5: when the catalog is empty and every fallback candidate fails to
    instantiate, an accepted request tries the four candidates, reports
    the error, stops the script and issues no generation call. *)
Theorem all_candidates_fail_halts a sel text_input img :
  missing_input text_input img = false ->
  forallb (fun n => fails (GenerativeModel w n)) model_names_to_try = true ->
  dispatch w a [] sel text_input img
  = (StSpinner "Processing... (this may take 10-30 seconds)"
     :: map CallGenerativeModel model_names_to_try
     ++ [StError "Could not find any working model. Please check your API key and permissions."],
     Stops) /\
  generate_calls (trace (dispatch w a [] sel text_input img)) = [].
Proof.
  intros Hok Hall.
  pose proof (try_model_names_none _ Hall) as Htry.
  assert (Hsel : select_model w [] sel
                 = (map CallGenerativeModel model_names_to_try
                    ++ [StError no_model_message], Stops)).
  { rewrite (select_model_fallback sel None) by (rewrite Htry; reflexivity).
    rewrite Htry. reflexivity. }
  split.
  - rewrite (dispatch_accepted _ _ _ _ _ Hok).
    rewrite process_stops by (rewrite Hsel; reflexivity).
    rewrite Hsel. reflexivity.
  - pose proof (dispatch_summary a [] sel text_input img Hok) as Hsum.
    cbv zeta in Hsum. rewrite Hsel in Hsum. apply Hsum.
Qed.

(** C6: with the action "Generate Quiz" the payload is the quiz
    instruction followed by parts that depend on the text and the image
    only; the generation call of an accepted request for which a model
    is obtained carries exactly that payload, a request makes no other
    generation call, and so the first element of every transmitted
    payload is the quiz instruction. *)
Theorem quiz_instruction_first ms sel text_input img :
  exists rest,
    build_final_input (label GenerateQuiz) text_input img
    = (ret (PText "Create 5 multiple choice questions with answers based on this content."
            :: rest) : script _) /\
    generate_calls (trace (dispatch w GenerateQuiz ms sel text_input img))
    = (if missing_input text_input img then []
       else match result (select_model w ms sel) with
            | Returns m =>
                [(m, PText "Create 5 multiple choice questions with answers based on this content."
                     :: rest)]
            | _ => []
            end) /\
    Forall (fun call =>
              hd_error (snd call)
              = Some (PText "Create 5 multiple choice questions with answers based on this content."))
           (generate_calls
              (trace (dispatch w GenerateQuiz ms sel text_input img))).
Proof.
  exists (text_part text_input ++ image_part img).
  assert (Hcalls :
            generate_calls
              (trace (dispatch w GenerateQuiz ms sel text_input img))
            = (if missing_input text_input img then []
               else match result (select_model w ms sel) with
                    | Returns m =>
                        [(m, payload_of GenerateQuiz text_input img)]
                    | _ => []
                    end)).
  { destruct (missing_input text_input img) eqn:Hmiss.
    - unfold dispatch. rewrite Hmiss. reflexivity.
    - pose proof (dispatch_summary GenerateQuiz ms sel text_input img Hmiss)
        as Hsum.
      cbv zeta in Hsum.
      destruct (result (select_model w ms sel)); apply Hsum. }
  split; [apply (build_final_input_payload GenerateQuiz)|].
  split; [exact Hcalls|].
  rewrite Hcalls.
  destruct (missing_input text_input img); [constructor|].
  destruct (result (select_model w ms sel)); repeat constructor.
Qed.

(** C10: a request with an empty text and an image is not rejected as
    missing input, its payload is the instruction followed by the image,
    with no text part, and that is what its generation call carries. *)
Theorem image_only_request a ms sel i :
  ~ In (StError "Please provide text or an image first.")
       (trace (dispatch w a ms sel "" (Some i))) /\
  build_final_input (label a) "" (Some i)
  = (ret [PText (instruction a); PImage i] : script _) /\
  generate_calls (trace (dispatch w a ms sel "" (Some i)))
  = match result (select_model w ms sel) with
    | Returns m => [(m, [PText (instruction a); PImage i])]
    | _ => []
    end.
Proof.
  pose proof (dispatch_summary a ms sel "" (Some i) eq_refl) as Hsum.
  cbv zeta in Hsum.
  change (payload_of a "" (Some i))
    with [PText (instruction a); PImage i] in Hsum.
  repeat split.
  - intros Hin. apply in_errors in Hin.
    destruct (result (select_model w ms sel)) as [m|e|].
    + destruct Hsum as [_ Hsum].
      destruct (generate_content w m _);
        destruct Hsum as (_ & He & _); rewrite He in Hin.
      * destruct Hin as [Hin|[]]. discriminate Hin.
      * destruct Hin.
    + destruct Hsum as (_ & _ & He & _). rewrite He in Hin.
      destruct Hin as [Hin|[]]. discriminate Hin.
    + destruct Hsum as (_ & _ & He & _). rewrite He in Hin.
      destruct Hin as [Hin|[]]. discriminate Hin.
  - apply build_final_input_payload.
  - destruct (result (select_model w ms sel)); apply Hsum.
Qed.

(** C3, amended: for an accepted request for which model selection yields
    a model, the dispatcher builds the ordered payload (instruction, then
    the truncated text if there is text, then the image if there is one)
    and issues exactly one generation call, with that model and payload;
    when the call returns, the result column shows the returned text
    unchanged and no error is shown.  For the text "Photosynthesis
    converts light into chemical energy" and the action Explain Concept
    the payload is the explain instruction followed by that text. *)
Theorem accepted_request_generates_once a ms sel text_input img m :
  missing_input text_input img = false ->
  result (select_model w ms sel) = Returns m ->
  build_final_input (label a) text_input img
  = (ret (PText (instruction a) :: text_part text_input ++ image_part img)
     : script _) /\
  generate_calls (trace (dispatch w a ms sel text_input img))
  = [(m, PText (instruction a) :: text_part text_input ++ image_part img)] /\
  (forall r,
     generate_content w m
       (PText (instruction a) :: text_part text_input ++ image_part img)
     = inr r ->
     rendered (trace (dispatch w a ms sel text_input img))
     = [StSubheader "Result"; StMarkdown (text r)] /\
     errors (trace (dispatch w a ms sel text_input img)) = [] /\
     result (dispatch w a ms sel text_input img) = Returns tt) /\
  PText (instruction ExplainConcept)
    :: text_part "Photosynthesis converts light into chemical energy"
    ++ image_part (@None Image)
  = [PText "Summarize this content into easy bullet points and explain complex terms simply.";
     PText "Photosynthesis converts light into chemical energy"].
Proof.
  intros Hok Hm.
  pose proof (dispatch_summary a ms sel text_input img Hok) as Hsum.
  cbv zeta in Hsum. rewrite Hm in Hsum. destruct Hsum as [Hcalls Hgen].
  unfold payload_of in *.
  split; [apply build_final_input_payload|].
  split; [exact Hcalls|].
  split; [|reflexivity].
  intros r Hr. rewrite Hr in Hgen.
  destruct Hgen as (Hrendered & Herrors & _ & Hresult). auto.
Qed.

(** C4: when iterating the model listing raises, the fetcher reports
    "Error fetching models: ..." and returns the empty list; a clicked,
    accepted request of that run then tries the fallback names in order,
    stops at the first one that can be instantiated, announces it, and
    generates with it. *)
Theorem listing_failure_falls_back listed e ui img pre n post m :
  list_models w = failing_listing listed e ->
  start_processing ui = true ->
  result (input_section w (image_input ui)) = Returns img ->
  missing_input (text_input ui) img = false ->
  model_names_to_try = pre ++ n :: post ->
  forallb (fun x => fails (GenerativeModel w x)) pre = true ->
  GenerativeModel w n = inr m ->
  get_available_models w
  = ([CallListModels; StError ("Error fetching models: " ++ str_of_exn e)],
     Returns []) /\
  model_calls (trace (app w ui)) = pre ++ [n] /\
  announcements (trace (app w ui)) = [("Using model: " ++ n)%string] /\
  generate_calls (trace (app w ui))
  = [(m, payload_of (choice ui) (text_input ui) img)].
Proof.
  intros Hl Hclick Himg Hok Hnames Hpre Hn.
  pose proof (get_available_models_failing _ _ Hl) as Hget.
  split; [exact Hget|].
  assert (Hms : result (get_available_models w) = Returns [])
    by (rewrite Hget; reflexivity).
  destruct (app_probes ui [] img Hms Himg Hclick Hok) as (Hm & Ha & Hg).
  rewrite Hm, Ha, Hg.
  pose proof (try_model_names_first pre n post m Hpre Hn) as Htry.
  rewrite <- Hnames in Htry.
  assert (Hsel : forall sel,
             select_model w [] sel
             = (map CallGenerativeModel pre ++
                [CallGenerativeModel n;
                 StSidebarSuccess ("Using model: " ++ n)], Returns m)).
  { intros sel.
    rewrite (select_model_fallback sel (Some m)) by (rewrite Htry; reflexivity).
    rewrite Htry. reflexivity. }
  rewrite Hsel. cbn [trace fst].
  rewrite model_calls_app, announcements_app.
  destruct (model_calls_map pre) as [-> ->].
  repeat split.
  pose proof (dispatch_summary (choice ui) [] (selected [] (model_pick ui))
                (text_input ui) img Hok) as Hsum.
  cbv zeta in Hsum. rewrite Hsel in Hsum. apply Hsum.
Qed.

(** C7: when the listing completes, the fetcher returns one entry for
    each listed model that supports "generateContent", in listing order;
    the entry's full name is the listed name and its display name is the
    listed name with every "models/" removed. *)
Theorem catalog_is_filtered_listing listed :
  list_models w = listing_of_list listed ->
  exists catalog,
    get_available_models w = ([CallListModels], Returns catalog) /\
    map full_name catalog
    = map name
        (filter (fun m => PyStr.contains "generateContent"
                            (supported_generation_methods m)) listed) /\
    map display_name catalog
    = map (fun d => PyStr.replace "models/" "" (full_name d)) catalog.
Proof.
  intros Hl. eexists. split; [apply get_available_models_listed, Hl|].
  rewrite !map_map. split; reflexivity.
Qed.

(** C8, amended: for an accepted request, an exception raised while the
    model selected from the catalog is instantiated, or raised by the
    generation call, ends the request with "Error: " followed by the
    exception's message, then the hint to select a different model, and
    nothing in the result column.  An exception raised while a fallback
    candidate is instantiated is not shown: with an empty catalog, when
    the candidates before the first working one all raise, the handler
    shows nothing between the attempts, tries the next name each time,
    announces the working one and goes on to the generation call. *)
Theorem exception_is_reported a ms sel text_input img e :
  missing_input text_input img = false ->
  ((exists d,
      find (fun d => String.eqb (display_name d) sel) ms = Some d /\
      GenerativeModel w (full_name d) = inl e) \/
   (exists m,
      result (select_model w ms sel) = Returns m /\
      generate_content w m (payload_of a text_input img) = inl e) ->
   errors (trace (dispatch w a ms sel text_input img))
   = [("Error: " ++ str_of_exn e)%string] /\
   infos (trace (dispatch w a ms sel text_input img))
   = ["Try selecting a different model from the sidebar dropdown."] /\
   rendered (trace (dispatch w a ms sel text_input img)) = [] /\
   result (dispatch w a ms sel text_input img) = Returns tt) /\
  (forall pre n post m,
     ms = [] ->
     model_names_to_try = pre ++ n :: post ->
     forallb (fun x => fails (GenerativeModel w x)) pre = true ->
     GenerativeModel w n = inr m ->
     exists tail,
       trace (dispatch w a ms sel text_input img)
       = StSpinner "Processing... (this may take 10-30 seconds)"
         :: map CallGenerativeModel pre
         ++ [CallGenerativeModel n;
             StSidebarSuccess ("Using model: " ++ n);
             CallGenerateContent m (payload_of a text_input img)]
         ++ tail).
Proof.
  intros Hok. split.
  - intros Hcause.
    pose proof (dispatch_summary a ms sel text_input img Hok) as Hsum.
    cbv zeta in Hsum.
    destruct Hcause as [(d & Hfind & Hfail)|(m & Hm & Hfail)].
    + rewrite (select_model_found _ _ _ Hfind), Hfail in Hsum.
      cbn [result snd] in Hsum. repeat split; apply Hsum.
    + rewrite Hm, Hfail in Hsum. repeat split; apply Hsum.
  - intros pre n post m -> Hnames Hpre Hn.
    pose proof (try_model_names_first pre n post m Hpre Hn) as Htry.
    rewrite <- Hnames in Htry.
    assert (Hsel : select_model w [] sel
                   = (map CallGenerativeModel pre ++
                      [CallGenerativeModel n;
                       StSidebarSuccess ("Using model: " ++ n)], Returns m)).
    { rewrite (select_model_fallback sel (Some m))
        by (rewrite Htry; reflexivity).
      rewrite Htry. reflexivity. }
    rewrite (dispatch_accepted _ _ _ _ _ Hok).
    rewrite (process_with_model a [] sel text_input img m)
      by (rewrite Hsel; reflexivity).
    rewrite Hsel.
    destruct (generate_content w m (payload_of a text_input img));
      cbn [trace result fst snd]; eexists; simpl;
      rewrite <- !app_assoc; simpl; reflexivity.
Qed.

(** C9: when the fetched catalog is not empty, a clicked, accepted
    request instantiates exactly one model: the full name of the first
    catalog entry whose display name is the selectbox value.  No other
    name is tried and no fallback announcement is made. *)
Theorem catalog_selection_is_used ui ms img :
  result (get_available_models w) = Returns ms ->
  nonempty ms = true ->
  start_processing ui = true ->
  result (input_section w (image_input ui)) = Returns img ->
  missing_input (text_input ui) img = false ->
  exists d,
    find (fun d => String.eqb (display_name d)
                     (selectbox (map display_name ms) (model_pick ui))) ms
    = Some d /\
    model_calls (trace (app w ui)) = [full_name d] /\
    announcements (trace (app w ui)) = [].
Proof.
  intros Hms Hne Hclick Himg Hok.
  destruct (find_selected ms (model_pick ui) Hne) as [d Hfind].
  exists d. split; [exact Hfind|].
  destruct (app_probes ui ms img Hms Himg Hclick Hok) as (Hm & Ha & _).
  rewrite Hm, Ha. unfold selected. rewrite Hne.
  rewrite (select_model_found _ _ _ Hfind). split; reflexivity.
Qed.

(** ** Further properties of the script *)

Lemma get_available_models_returns :
  exists ms, result (get_available_models w) = Returns ms.
Proof.
  destruct (listing_cases (list_models w)) as [(ms & Hl)|(ms & e & Hl)].
  - rewrite (get_available_models_listed _ Hl). eexists. reflexivity.
  - rewrite (get_available_models_failing _ _ Hl). eexists. reflexivity.
Qed.

Lemma input_section_cases file :
  input_section w file
  = match file with
    | None => ([], Returns None)
    | Some f =>
        match Image_open w f with
        | inl e => ([], Raises e)
        | inr i =>
            match st_image w i with
            | inl e => ([], Raises e)
            | inr _ => ([StImage i], Returns (Some i))
            end
        end
    end.
Proof.
  destruct file as [f|]; [|reflexivity].
  unfold input_section, bind.
  destruct (Image_open w f) as [e|i]; [reflexivity|]. simpl.
  destruct (st_image w i); reflexivity.
Qed.

(** The part of a run before the button: catalog, sidebar, inputs. *)
Lemma app_unfold ui ms :
  result (get_available_models w) = Returns ms ->
  let page := trace (get_available_models w) ++
              trace (model_settings ms (model_pick ui) : script _) ++
              trace (input_section w (image_input ui)) in
  app w ui
  = match result (input_section w (image_input ui)) with
    | Returns img =>
        if start_processing ui then
          (page ++ trace (dispatch w (choice ui) ms
                                   (selected ms (model_pick ui))
                                   (text_input ui) img),
           result (dispatch w (choice ui) ms (selected ms (model_pick ui))
                            (text_input ui) img))
        else (page, Returns tt)
    | Raises e => (page, Raises e)
    | Stops => (page, Stops)
    end.
Proof.
  intros Hms page. subst page. unfold app.
  rewrite (bind_returns _ _ ms Hms). cbv beta.
  rewrite (bind_returns (model_settings ms (model_pick ui)) _
                        (selected ms (model_pick ui)))
    by (rewrite model_settings_eq; reflexivity).
  cbv beta.
  destruct (result (input_section w (image_input ui))) as [img|e|] eqn:Hin.
  - rewrite (bind_returns _ _ img Hin). cbv beta.
    destruct (start_processing ui); cbn [trace result fst snd ret].
    + rewrite <- !app_assoc. reflexivity.
    + rewrite !app_nil_r. reflexivity.
  - rewrite (bind_raises _ _ e Hin). reflexivity.
  - rewrite (bind_stops _ _ Hin). reflexivity.
Qed.

Lemma page_quiet ui ms :
  let page := trace (get_available_models w) ++
              trace (model_settings ms (model_pick ui) : script _) ++
              trace (input_section w (image_input ui)) in
  model_calls page = [] /\ generate_calls page = [] /\
  rendered page = [] /\ announcements page = [].
Proof.
  intros page. subst page.
  rewrite model_settings_eq, input_section_cases.
  destruct (listing_cases (list_models w)) as [(l & Hl)|(l & e & Hl)];
    [rewrite (get_available_models_listed _ Hl)
    |rewrite (get_available_models_failing _ _ Hl)];
    destruct (nonempty ms); destruct (image_input ui) as [f|];
    try (destruct (Image_open w f) as [?|i]; try destruct (st_image w i));
    repeat split.
Qed.

Lemma dispatch_rejected a ms sel text_input img :
  missing_input text_input img = true ->
  dispatch w a ms sel text_input img
  = ([StError validation_message], Returns tt).
Proof. intros H. unfold dispatch. rewrite H. reflexivity. Qed.

(** *** Text and payload *)

(** X1: a non-empty text of at most 10,000 characters is sent whole:
    the payload is the instruction, the text itself, then the image if
    there is one, and that is what the generation call carries. *)
Theorem short_text_sent_whole a ms sel text_input img :
  (0 < PyStr.len text_input <= 10000)%Z ->
  build_final_input (label a) text_input img
  = (ret (PText (instruction a) :: PText text_input :: image_part img)
     : script _) /\
  generate_calls (trace (dispatch w a ms sel text_input img))
  = match result (select_model w ms sel) with
    | Returns m =>
        [(m, PText (instruction a) :: PText text_input :: image_part img)]
    | _ => []
    end.
Proof.
  intros [Hpos Hle].
  pose proof (truthy_of_len _ Hpos) as Htruthy.
  assert (Hpayload : payload_of a text_input img
                     = PText (instruction a) :: PText text_input
                         :: image_part img).
  { unfold payload_of, text_part.
    rewrite Htruthy, (truncate_short _ Hle). reflexivity. }
  split.
  - rewrite build_final_input_payload, Hpayload. reflexivity.
  - pose proof (dispatch_summary a ms sel text_input img
                  (missing_input_text _ _ Htruthy)) as Hsum.
    cbv zeta in Hsum. rewrite Hpayload in Hsum.
    destruct (result (select_model w ms sel)); apply Hsum.
Qed.

Lemma instruction_len a : (PyStr.len (instruction a) <= 10000)%Z.
Proof. destruct a; vm_compute; discriminate. Qed.

(** X2: whatever the inputs and the world, no text in the payload of a
    generation call is longer than 10,000 characters. *)
Theorem transmitted_text_bounded a ms sel text_input img :
  Forall (fun call =>
            forall s, In (PText s) (snd call) -> (PyStr.len s <= 10000)%Z)
         (generate_calls (trace (dispatch w a ms sel text_input img))).
Proof.
  assert (Hpayload : forall s,
             In (PText s) (payload_of a text_input img) ->
             (PyStr.len s <= 10000)%Z).
  { intros s [Heq|Hin].
    - inversion Heq. apply instruction_len.
    - apply in_app_or in Hin. destruct Hin as [Hin|Hin].
      + unfold text_part in Hin.
        destruct (PyStr.truthy text_input); [|destruct Hin].
        destruct Hin as [Heq|[]]. inversion Heq. apply truncate_len_le.
      + destruct img; [|destruct Hin].
        destruct Hin as [Heq|[]]. discriminate Heq. }
  destruct (missing_input text_input img) eqn:Hmiss.
  - rewrite (dispatch_rejected _ _ _ _ _ Hmiss). constructor.
  - pose proof (dispatch_summary a ms sel text_input img Hmiss) as Hsum.
    cbv zeta in Hsum.
    destruct (result (select_model w ms sel)); destruct Hsum as [-> _];
      repeat constructor.
    exact Hpayload.
Qed.

(** X4: the prompts dictionary has an entry for each option of the
    radio and for nothing else: with a radio label the payload is built
    without an exception, with any other key building it raises the
    KeyError of that key, whose message is the repr of the key. *)
Theorem prompts_cover_the_actions key text_input img :
  (exists a,
     key = label a /\
     build_final_input key text_input img
     = (ret (payload_of a text_input img) : script _)) \/
  ((forall a, key <> label a) /\
   build_final_input key text_input img
   = (raise (Exception (PyStr.repr key)) : script _)).
Proof.
  destruct (String.eqb_spec "Explain Concept" key) as [He|He].
  { left. exists ExplainConcept. subst key.
    split; [reflexivity|apply (build_final_input_payload ExplainConcept)]. }
  destruct (String.eqb_spec "Generate Quiz" key) as [Hq|Hq].
  { left. exists GenerateQuiz. subst key.
    split; [reflexivity|apply (build_final_input_payload GenerateQuiz)]. }
  destruct (String.eqb_spec "Make Flashcards" key) as [Hf|Hf].
  { left. exists MakeFlashcards. subst key.
    split; [reflexivity|apply (build_final_input_payload MakeFlashcards)]. }
  right. split.
  - intros [] Heq; simpl in Heq; congruence.
  - unfold build_final_input, prompts, getitem.
    apply String.eqb_neq in He, Hq, Hf. rewrite He, Hq, Hf. reflexivity.
Qed.

(** *** Outcomes of the handler *)

Lemma try_model_names_some names :
  forallb (fun x => fails (GenerativeModel w x)) names = false ->
  exists m, result (try_model_names w names) = Returns (Some m).
Proof.
  induction names as [|x names IH]; intros Hsome; [discriminate|].
  destruct (GenerativeModel w x) as [e|m] eqn:Hx.
  - rewrite try_model_names_cons_fails by (rewrite Hx; reflexivity).
    apply IH. simpl in Hsome. rewrite Hx in Hsome. exact Hsome.
  - rewrite (try_model_names_cons_ok _ _ _ Hx). exists m. reflexivity.
Qed.

(** Model selection stops the script exactly when the catalog is empty
    and every candidate fails. *)
Lemma select_model_stops ms sel :
  let all_fail :=
    negb (nonempty ms) &&
    forallb (fun x => fails (GenerativeModel w x)) model_names_to_try in
  match result (select_model w ms sel) with
  | Stops => all_fail = true
  | _ => all_fail = false
  end.
Proof.
  intros all_fail. subst all_fail. destruct ms as [|d0 ms].
  - destruct (forallb (fun x => fails (GenerativeModel w x))
                      model_names_to_try) eqn:Hall.
    + rewrite (select_model_fallback sel None)
        by (rewrite (try_model_names_none _ Hall); reflexivity).
      reflexivity.
    + destruct (try_model_names_some _ Hall) as [m Hm].
      rewrite (select_model_fallback sel (Some m) Hm). reflexivity.
  - destruct (find (fun d => String.eqb (display_name d) sel) (d0 :: ms))
      as [d|] eqn:Hfind.
    + rewrite (select_model_found _ _ _ Hfind).
      destruct (GenerativeModel w (full_name d)); reflexivity.
    + rewrite select_model_not_found by (reflexivity || exact Hfind).
      reflexivity.
Qed.

(** X6: the handler never lets an exception escape.  It stops the
    script when the request is accepted, the catalog is empty and every
    fallback candidate fails; in every other case it returns. *)
Theorem dispatch_outcome a ms sel text_input img :
  result (dispatch w a ms sel text_input img)
  = if negb (missing_input text_input img) &&
       (negb (nonempty ms) &&
        forallb (fun x => fails (GenerativeModel w x)) model_names_to_try)
    then Stops
    else Returns tt.
Proof.
  destruct (missing_input text_input img) eqn:Hmiss.
  - rewrite (dispatch_rejected _ _ _ _ _ Hmiss). reflexivity.
  - pose proof (dispatch_summary a ms sel text_input img Hmiss) as Hsum.
    pose proof (select_model_stops ms sel) as Hstop.
    cbv zeta in Hsum, Hstop. cbn [negb andb].
    destruct (result (select_model w ms sel)) as [m|e|]; rewrite Hstop.
    + destruct Hsum as [_ Hsum].
      destruct (generate_content w m _); apply Hsum.
    + apply Hsum.
    + apply Hsum.
Qed.

Lemma markdowns_rendered (t : list event) :
  markdowns t = markdowns (rendered t).
Proof.
  induction t as [|ev t IH]; [reflexivity|].
  destruct ev; simpl; fold (@markdowns Model Image) (@rendered Model Image);
    rewrite <- ?IH; reflexivity.
Qed.

(** X7: a request shows either exactly one error and no result text, or
    no error and the result heading followed by one result text; an
    error and a result text are never both shown, and never neither. *)
Theorem error_or_result_never_both a ms sel text_input img :
  (exists msg,
     errors (trace (dispatch w a ms sel text_input img)) = [msg] /\
     markdowns (trace (dispatch w a ms sel text_input img)) = []) \/
  (errors (trace (dispatch w a ms sel text_input img)) = [] /\
   exists body,
     rendered (trace (dispatch w a ms sel text_input img))
     = [StSubheader "Result"; StMarkdown body] /\
     markdowns (trace (dispatch w a ms sel text_input img)) = [body]).
Proof.
  rewrite markdowns_rendered.
  destruct (missing_input text_input img) eqn:Hmiss.
  - rewrite (dispatch_rejected _ _ _ _ _ Hmiss).
    left. eexists. split; reflexivity.
  - pose proof (dispatch_summary a ms sel text_input img Hmiss) as Hsum.
    cbv zeta in Hsum.
    destruct (result (select_model w ms sel)) as [m|e|].
    + destruct Hsum as [_ Hsum].
      destruct (generate_content w m _) as [e|r].
      * destruct Hsum as (Hr & He & _). rewrite Hr. left. eexists.
        split; [exact He|reflexivity].
      * destruct Hsum as (Hr & He & _). rewrite Hr. right.
        split; [exact He|]. eexists. split; reflexivity.
    + destruct Hsum as (_ & Hr & He & _). rewrite Hr. left. eexists.
      split; [exact He|reflexivity].
    + destruct Hsum as (_ & Hr & He & _). rewrite Hr. left. eexists.
      split; [exact He|reflexivity].
Qed.

(** X8: a text shown in the result column is the text of the response
    that the request's one generation call returned for the payload. *)
Theorem result_comes_from_generation a ms sel text_input img body :
  In (StMarkdown body) (trace (dispatch w a ms sel text_input img)) ->
  exists m r,
    generate_calls (trace (dispatch w a ms sel text_input img))
    = [(m, payload_of a text_input img)] /\
    generate_content w m (payload_of a text_input img) = inr r /\
    body = text r.
Proof.
  intros Hin.
  assert (Hshown : In (StMarkdown body)
                      (rendered (trace (dispatch w a ms sel text_input img))))
    by (apply filter_In; split; [exact Hin|reflexivity]).
  clear Hin. destruct (missing_input text_input img) eqn:Hmiss.
  - rewrite (dispatch_rejected _ _ _ _ _ Hmiss) in Hshown. destruct Hshown.
  - pose proof (dispatch_summary a ms sel text_input img Hmiss) as Hsum.
    cbv zeta in Hsum.
    destruct (result (select_model w ms sel)) as [m|e|].
    + destruct Hsum as [Hcalls Hsum].
      destruct (generate_content w m (payload_of a text_input img))
        as [e|r] eqn:Hgen.
      * destruct Hsum as (Hr & _). rewrite Hr in Hshown. destruct Hshown.
      * destruct Hsum as (Hr & _). rewrite Hr in Hshown.
        destruct Hshown as [Heq|[Heq|[]]]; [discriminate Heq|].
        inversion Heq. exists m, r. auto.
    + destruct Hsum as (_ & Hr & _). rewrite Hr in Hshown. destruct Hshown.
    + destruct Hsum as (_ & Hr & _). rewrite Hr in Hshown. destruct Hshown.
Qed.

(** *** Model selection *)

Lemma try_model_names_prefix names :
  exists rest,
    names = model_calls (trace (try_model_names w names)) ++ rest.
Proof.
  induction names as [|x names [rest IH]].
  - exists []. reflexivity.
  - destruct (GenerativeModel w x) as [e|m] eqn:Hx.
    + rewrite try_model_names_cons_fails by (rewrite Hx; reflexivity).
      exists rest. cbn [trace fst]. simpl. rewrite <- IH. reflexivity.
    + rewrite (try_model_names_cons_ok _ _ _ Hx). exists names. reflexivity.
Qed.

(** X9: with an empty catalog an accepted request tries the fallback
    names strictly in list order, starting with the first: the names it
    tries are a prefix of the list, whatever the world answers. *)
Theorem fallback_attempts_in_order a sel text_input img :
  missing_input text_input img = false ->
  hd_error (model_calls (trace (dispatch w a [] sel text_input img)))
  = Some "gemini-1.5-flash" /\
  exists rest,
    model_names_to_try
    = model_calls (trace (dispatch w a [] sel text_input img)) ++ rest.
Proof.
  intros Hok.
  destruct (dispatch_probes a [] sel text_input img Hok) as [-> _].
  destruct (try_model_names_probes model_names_to_try) as (_ & o & Hr).
  assert (Hcalls : model_calls (trace (select_model w [] sel))
                   = model_calls (trace (try_model_names w model_names_to_try))).
  { rewrite (select_model_fallback sel o Hr).
    destruct o; cbn [trace fst]; [reflexivity|].
    rewrite model_calls_app. simpl. apply app_nil_r. }
  rewrite Hcalls. split; [|apply try_model_names_prefix].
  unfold model_names_to_try.
  destruct (GenerativeModel w "gemini-1.5-flash") as [e|m] eqn:Hx.
  - rewrite try_model_names_cons_fails by (rewrite Hx; reflexivity).
    reflexivity.
  - rewrite (try_model_names_cons_ok _ _ _ Hx). reflexivity.
Qed.

(** X10: when the value in [selected_model] is the display name of no
    entry of a non-empty catalog, the generator is exhausted: an accepted
    request builds no model and ends with "Error: " followed by the empty
    message of StopIteration, and the hint. *)
Theorem unknown_selection_is_reported a ms sel text_input img :
  missing_input text_input img = false ->
  nonempty ms = true ->
  find (fun d => String.eqb (display_name d) sel) ms = None ->
  dispatch w a ms sel text_input img
  = ([StSpinner "Processing... (this may take 10-30 seconds)";
      StError "Error: ";
      StInfo "Try selecting a different model from the sidebar dropdown."],
     Returns tt).
Proof.
  intros Hok Hne Hfind.
  pose proof (select_model_not_found ms sel Hne Hfind) as Hsel.
  rewrite (dispatch_accepted _ _ _ _ _ Hok).
  rewrite (process_raises _ _ _ _ _ (Exception ""))
    by (rewrite Hsel; reflexivity).
  rewrite Hsel. reflexivity.
Qed.

Lemma find_nth_nodup ms i d :
  NoDup (map display_name ms) ->
  nth_error ms i = Some d ->
  find (fun x => String.eqb (display_name x) (display_name d)) ms = Some d.
Proof.
  revert i; induction ms as [|x ms IH]; intros i Hnd Hnth.
  - destruct i; discriminate.
  - simpl in Hnd. inversion Hnd as [|? ? Hnotin Hnd']; subst.
    destruct i as [|j]; simpl in Hnth.
    + inversion Hnth. simpl. rewrite String.eqb_refl. reflexivity.
    + simpl. destruct (String.eqb_spec (display_name x) (display_name d))
        as [Heq|Hneq].
      * exfalso. apply Hnotin. rewrite Heq.
        apply in_map, (nth_error_In _ _ Hnth).
      * apply (IH j Hnd' Hnth).
Qed.

(** X11: when the display names of the catalog are pairwise different,
    picking the option at position [i] of the selectbox instantiates the
    model of the catalog entry at position [i], and only that one. *)
Theorem picked_option_selects_its_entry ms i d :
  NoDup (map display_name ms) ->
  nth_error ms i = Some d ->
  select_model w ms (selected ms i)
  = ([CallGenerativeModel (full_name d)],
     match GenerativeModel w (full_name d) with
     | inr m => Returns m
     | inl e => Raises e
     end).
Proof.
  intros Hnd Hnth.
  assert (Hsel : selected ms i = display_name d).
  { unfold selected, selectbox.
    destruct ms as [|x ms]; [destruct i; discriminate|].
    cbn [nonempty]. apply nth_error_nth.
    apply map_nth_error, Hnth. }
  rewrite Hsel. apply select_model_found, (find_nth_nodup _ _ _ Hnd Hnth).
Qed.

(** *** Whole runs *)

(** X12: the fetcher never lets an exception escape: for every listing
    it makes the listing call first and returns a catalog; it either
    shows no error, or shows one "Error fetching models: ..." message and
    returns the empty catalog. *)
Theorem fetcher_never_raises :
  exists catalog,
    result (get_available_models w) = Returns catalog /\
    hd_error (trace (get_available_models w)) = Some CallListModels /\
    (errors (trace (get_available_models w)) = [] \/
     catalog = [] /\
     exists e,
       errors (trace (get_available_models w))
       = [("Error fetching models: " ++ str_of_exn e)%string]).
Proof.
  destruct (listing_cases (list_models w)) as [(l & Hl)|(l & e & Hl)].
  - rewrite (get_available_models_listed _ Hl).
    eexists. split; [reflexivity|]. split; [reflexivity|]. left. reflexivity.
  - rewrite (get_available_models_failing _ _ Hl).
    exists []. split; [reflexivity|]. split; [reflexivity|].
    right. split; [reflexivity|]. exists e. reflexivity.
Qed.

(** X13: a run in which the button was not clicked builds no model,
    issues no generation call, announces no model and shows nothing in
    the result column. *)
Theorem unclicked_run_is_idle ui :
  start_processing ui = false ->
  model_calls (trace (app w ui)) = [] /\
  generate_calls (trace (app w ui)) = [] /\
  rendered (trace (app w ui)) = [] /\
  announcements (trace (app w ui)) = [].
Proof.
  intros Hidle. destruct get_available_models_returns as [ms Hms].
  rewrite (app_unfold ui ms Hms). cbv zeta. rewrite Hidle.
  destruct (result (input_section w (image_input ui)));
    cbn [trace fst]; apply page_quiet.
Qed.

Lemma try_model_names_length names :
  length (model_calls (trace (try_model_names w names))) <= length names.
Proof.
  destruct (try_model_names_prefix names) as [rest Hrest].
  rewrite Hrest at 2. rewrite length_app. lia.
Qed.

Lemma dispatch_call_bounds a ms sel text_input img :
  length (generate_calls (trace (dispatch w a ms sel text_input img))) <= 1 /\
  length (model_calls (trace (dispatch w a ms sel text_input img))) <= 4.
Proof.
  destruct (missing_input text_input img) eqn:Hmiss.
  - rewrite (dispatch_rejected _ _ _ _ _ Hmiss). simpl. lia.
  - split.
    + pose proof (dispatch_summary a ms sel text_input img Hmiss) as Hsum.
      cbv zeta in Hsum.
      destruct (result (select_model w ms sel));
        destruct Hsum as [-> _]; simpl; lia.
    + destruct (dispatch_probes a ms sel text_input img Hmiss) as [-> _].
      destruct ms as [|d0 ms].
      * destruct (try_model_names_probes model_names_to_try)
          as (_ & o & Hr).
        pose proof (try_model_names_length model_names_to_try) as Hlen.
        change (length model_names_to_try) with 4 in Hlen.
        rewrite (select_model_fallback sel o Hr).
        destruct o; cbn [trace fst]; [exact Hlen|].
        rewrite model_calls_app, length_app.
        change (length (model_calls [StError no_model_message])) with 0.
        lia.
      * destruct (find (fun d => String.eqb (display_name d) sel)
                       (d0 :: ms)) as [d|] eqn:Hfind.
        -- rewrite (select_model_found _ _ _ Hfind). simpl. lia.
        -- rewrite select_model_not_found by (reflexivity || exact Hfind).
           simpl. lia.
Qed.

(** X14: whatever the user does and the world answers, one run of the
    script issues at most one generation call and constructs at most
    four models. *)
Theorem run_call_bounds ui :
  length (generate_calls (trace (app w ui))) <= 1 /\
  length (model_calls (trace (app w ui))) <= 4.
Proof.
  destruct get_available_models_returns as [ms Hms].
  rewrite (app_unfold ui ms Hms).
  pose proof (page_quiet ui ms) as Hquiet. cbv zeta in *.
  set (page := trace (get_available_models w) ++ _) in *.
  destruct Hquiet as (Hm & Hg & _). clearbody page.
  destruct (result (input_section w (image_input ui))) as [img|e|];
    [destruct (start_processing ui)| |]; cbn [trace fst];
    rewrite ?generate_calls_app, ?model_calls_app, ?length_app, Hm, Hg;
    simpl; try lia.
  apply dispatch_call_bounds.
Qed.

(** X15: when the uploaded file cannot be opened as an image the run
    ends with that exception before the button is looked at: no model is
    built, no generation call is issued and nothing is shown in the
    result column, clicked or not. *)
Theorem undecodable_image_aborts ui file e :
  image_input ui = Some file ->
  Image_open w file = inl e ->
  result (app w ui) = Raises e /\
  model_calls (trace (app w ui)) = [] /\
  generate_calls (trace (app w ui)) = [] /\
  rendered (trace (app w ui)) = [].
Proof.
  intros Hfile Hopen. destruct get_available_models_returns as [ms Hms].
  rewrite (app_unfold ui ms Hms). cbv zeta.
  destruct (page_quiet ui ms) as (Hm & Hg & Hr & _).
  assert (Hin : result (input_section w (image_input ui)) = Raises e)
    by (rewrite input_section_cases, Hfile, Hopen; reflexivity).
  rewrite Hin. cbn [trace result fst snd]. auto.
Qed.

(** X16: an exception escapes a run only from the two calls on the
    uploaded file that are outside every [try]: opening it with
    [Image.open], or showing the opened image with [st.image]. *)
Theorem only_image_errors_escape ui e :
  result (app w ui) = Raises e ->
  exists file,
    image_input ui = Some file /\
    (Image_open w file = inl e \/
     exists img, Image_open w file = inr img /\ st_image w img = inl e).
Proof.
  destruct get_available_models_returns as [ms Hms].
  rewrite (app_unfold ui ms Hms). cbv zeta.
  rewrite input_section_cases.
  assert (Hhandler : forall img,
             result (dispatch w (choice ui) ms (selected ms (model_pick ui))
                              (text_input ui) img) <> Raises e).
  { intros img. rewrite dispatch_outcome.
    match goal with |- (if ?b then _ else _) <> _ => destruct b end;
      discriminate. }
  destruct (image_input ui) as [file|].
  - destruct (Image_open w file) as [e'|i] eqn:Hopen; cbn [result snd].
    + intros H. inversion H. subst. exists file. auto.
    + destruct (st_image w i) as [e'|[]] eqn:Hshow; cbn [result snd].
      * intros H. inversion H. subst. exists file.
        split; [reflexivity|]. right. exists i. auto.
      * destruct (start_processing ui); cbn [result snd].
        -- intros H. destruct (Hhandler _ H).
        -- discriminate.
  - cbn [result snd]. destruct (start_processing ui); cbn [result snd].
    + intros H. destruct (Hhandler _ H).
    + discriminate.
Qed.

End Properties.

(** *** Truncation and display names *)

(** X3: truncating is idempotent and always yields a prefix of the
    text. *)
Theorem truncate_idempotent s :
  truncate (truncate s) = truncate s /\
  exists rest, s = (truncate s ++ rest)%string.
Proof.
  split.
  - apply truncate_short, truncate_len_le.
  - unfold truncate. destruct (PyStr.len s >? 10000)%Z.
    + apply take_is_prefix.
    + exists "". clear. induction s as [|c r IH]; simpl; congruence.
Qed.

Lemma prefix_true_app p s :
  String.prefix p s = true -> exists rest, s = (p ++ rest)%string.
Proof.
  revert s; induction p as [|a p IH]; intros s H.
  - exists s. reflexivity.
  - destruct s as [|b s]; simpl in H; [discriminate|].
    destruct (Ascii.ascii_dec a b) as [->|]; [|discriminate].
    destruct (IH _ H) as [rest ->]. exists rest. reflexivity.
Qed.

Lemma replace_no_slash s :
  no_slash s = true -> PyStr.replace "models/" "" s = s.
Proof.
  unfold PyStr.replace. induction s as [|c r IH]; intros Hno.
  - reflexivity.
  - cbn [PyStr.replace_from].
    destruct (String.prefix "models/" (String c r)) eqn:Hp.
    + apply prefix_true_app in Hp. destruct Hp as [rest Hrest].
      rewrite Hrest in Hno. simpl in Hno. discriminate.
    + simpl in Hno. apply andb_prop in Hno. destruct Hno as [_ Hno].
      rewrite (IH Hno). reflexivity.
Qed.

(** X5: a listed name without a slash is its own display name, and the
    display name of "models/" followed by such a name is that name. *)
Theorem display_name_strips_prefix s :
  no_slash s = true ->
  display_name_of s = s /\
  display_name_of ("models/" ++ s) = s.
Proof.
  intros Hno. unfold display_name_of. split.
  - apply replace_no_slash, Hno.
  - rewrite <- (replace_no_slash s Hno) at 2.
    unfold PyStr.replace. destruct s; reflexivity.
Qed.

(** * Concrete runs *)

Import Examples.

Example healthy_run :
  app healthy (click ExplainConcept 0 photosynthesis None)
  = ([CallListModels;
      StSpinner "Processing... (this may take 10-30 seconds)";
      CallGenerativeModel "models/gemini-1.5-flash";
      CallGenerateContent "models/gemini-1.5-flash"
        [PText explain_instruction; PText photosynthesis];
      StSubheader "Result";
      StMarkdown "answer of models/gemini-1.5-flash"],
     Returns tt).
Proof. reflexivity. Qed.

Example no_permission_run :
  app no_permission (click GenerateQuiz 1 "" (Some 3))
  = ([CallListModels; StImage 3;
      StSpinner "Processing... (this may take 10-30 seconds)";
      CallGenerativeModel "models/gemini-1.5-pro";
      StError "Error: 403 permission denied";
      StInfo "Try selecting a different model from the sidebar dropdown."],
     Returns tt).
Proof. reflexivity. Qed.

Example unclicked_run :
  app offline {| choice := ExplainConcept; model_pick := 0;
                 text_input := photosynthesis; image_input := None;
                 start_processing := false |}
  = ([CallListModels; StError "Error fetching models: 503 unavailable";
      StWarning "No models found. Using default model name."],
     Returns tt).
Proof. reflexivity. Qed.

Lemma long_text_truncated_witness :
  (10000 < PyStr.len long_text)%Z /\
  exists sent rest,
    long_text = (sent ++ rest)%string /\
    PyStr.len sent = 10000%Z /\
    build_final_input (label GenerateQuiz) long_text (Some 7)
    = (ret (PText (instruction GenerateQuiz) :: PText sent
            :: image_part (Some 7)) : @script string nat _) /\
    generate_calls
      (trace (dispatch healthy GenerateQuiz catalog "gemini-1.5-pro"
                       long_text (Some 7)))
    = match result (select_model healthy catalog "gemini-1.5-pro") with
      | Returns m =>
          [(m, PText (instruction GenerateQuiz) :: PText sent
               :: image_part (Some 7))]
      | _ => []
      end.
Proof.
  split.
  - vm_compute. reflexivity.
  - apply (long_text_truncated healthy GenerateQuiz catalog "gemini-1.5-pro"
             long_text (Some 7)).
    vm_compute. reflexivity.
Defined.

(** C3 as stated fails: this request is accepted, no fallback candidate
    can be instantiated, and no generation call is issued. *)
Lemma accepted_request_without_generation :
  missing_input photosynthesis (@None nat) = false /\
  generate_calls
    (trace (dispatch offline ExplainConcept [] "gemini-pro"
                     photosynthesis None)) = [] /\
  rendered
    (trace (dispatch offline ExplainConcept [] "gemini-pro"
                     photosynthesis None)) = [].
Proof. repeat split. Qed.

Lemma accepted_request_generates_once_witness :
  missing_input photosynthesis (@None nat) = false /\
  result (select_model healthy catalog "gemini-1.5-flash")
  = Returns "models/gemini-1.5-flash" /\
  generate_calls
    (trace (dispatch healthy ExplainConcept catalog "gemini-1.5-flash"
                     photosynthesis None))
  = [("models/gemini-1.5-flash",
      [PText explain_instruction; PText photosynthesis])] /\
  rendered
    (trace (dispatch healthy ExplainConcept catalog "gemini-1.5-flash"
                     photosynthesis None))
  = [StSubheader "Result";
     StMarkdown "answer of models/gemini-1.5-flash"].
Proof.
  destruct (accepted_request_generates_once healthy ExplainConcept catalog
              "gemini-1.5-flash" photosynthesis None
              "models/gemini-1.5-flash" eq_refl eq_refl)
    as (_ & Hcalls & Hreturned & _).
  split; [reflexivity|]. split; [reflexivity|]. split; [exact Hcalls|].
  exact (proj1 (Hreturned {| text := "answer of models/gemini-1.5-flash" |}
                          eq_refl)).
Defined.

Lemma listing_failure_falls_back_witness :
  list_models flash_retired = failing_listing [] (Exception "timeout") /\
  result (input_section flash_retired None) = Returns None /\
  missing_input photosynthesis (@None nat) = false /\
  model_names_to_try
  = ["gemini-1.5-flash"] ++ "gemini-1.5-pro" :: ["gemini-1.0-pro"; "gemini-pro"] /\
  forallb (fun x => fails (GenerativeModel flash_retired x))
          ["gemini-1.5-flash"] = true /\
  GenerativeModel flash_retired "gemini-1.5-pro" = inr "gemini-1.5-pro" /\
  get_available_models flash_retired
  = ([CallListModels; StError "Error fetching models: timeout"], Returns []) /\
  model_calls
    (trace (app flash_retired (click ExplainConcept 0 photosynthesis None)))
  = ["gemini-1.5-flash"; "gemini-1.5-pro"] /\
  announcements
    (trace (app flash_retired (click ExplainConcept 0 photosynthesis None)))
  = ["Using model: gemini-1.5-pro"] /\
  generate_calls
    (trace (app flash_retired (click ExplainConcept 0 photosynthesis None)))
  = [("gemini-1.5-pro", [PText explain_instruction; PText photosynthesis])].
Proof.
  do 6 (split; [reflexivity|]).
  apply (listing_failure_falls_back flash_retired [] (Exception "timeout")
           (click ExplainConcept 0 photosynthesis None) None
           ["gemini-1.5-flash"] "gemini-1.5-pro"
           ["gemini-1.0-pro"; "gemini-pro"] "gemini-1.5-pro");
    reflexivity.
Defined.

Lemma all_candidates_fail_halts_witness :
  missing_input photosynthesis (@None nat) = false /\
  forallb (fun n => fails (GenerativeModel offline n)) model_names_to_try
  = true /\
  dispatch offline MakeFlashcards [] "gemini-pro" photosynthesis None
  = ([StSpinner "Processing... (this may take 10-30 seconds)";
      CallGenerativeModel "gemini-1.5-flash";
      CallGenerativeModel "gemini-1.5-pro";
      CallGenerativeModel "gemini-1.0-pro";
      CallGenerativeModel "gemini-pro";
      StError "Could not find any working model. Please check your API key and permissions."],
     Stops) /\
  generate_calls
    (trace (dispatch offline MakeFlashcards [] "gemini-pro"
                     photosynthesis None)) = [].
Proof.
  do 2 (split; [reflexivity|]).
  apply (all_candidates_fail_halts offline MakeFlashcards "gemini-pro"
           photosynthesis None); reflexivity.
Defined.

Lemma catalog_is_filtered_listing_witness :
  list_models healthy = listing_of_list [flash; embedding; pro] /\
  exists catalog,
    get_available_models healthy = ([CallListModels], Returns catalog) /\
    map full_name catalog
    = map name
        (filter (fun m => PyStr.contains "generateContent"
                            (supported_generation_methods m))
                [flash; embedding; pro]) /\
    map display_name catalog
    = map (fun d => PyStr.replace "models/" "" (full_name d)) catalog.
Proof.
  split; [reflexivity|].
  apply (catalog_is_filtered_listing healthy [flash; embedding; pro]).
  reflexivity.
Defined.

(** C8 as stated fails: the exception raised for the first fallback
    candidate is swallowed, the request succeeds with the second one, and
    neither the message nor the hint is shown. *)
Lemma swallowed_instantiation_error :
  GenerativeModel flash_retired "gemini-1.5-flash"
  = inl (Exception "404 model not found") /\
  model_calls
    (trace (dispatch flash_retired ExplainConcept [] "gemini-pro"
                     photosynthesis None))
  = ["gemini-1.5-flash"; "gemini-1.5-pro"] /\
  errors
    (trace (dispatch flash_retired ExplainConcept [] "gemini-pro"
                     photosynthesis None)) = [] /\
  infos
    (trace (dispatch flash_retired ExplainConcept [] "gemini-pro"
                     photosynthesis None)) = [] /\
  rendered
    (trace (dispatch flash_retired ExplainConcept [] "gemini-pro"
                     photosynthesis None))
  = [StSubheader "Result"; StMarkdown "answer of gemini-1.5-pro"].
Proof. repeat split. Qed.

Lemma exception_is_reported_witness :
  missing_input photosynthesis (@None nat) = false /\
  result (select_model flash_retired_over_quota [] "gemini-pro")
  = Returns "gemini-1.5-pro" /\
  generate_content flash_retired_over_quota "gemini-1.5-pro"
    (payload_of MakeFlashcards photosynthesis None)
  = inl (Exception "429 quota exceeded") /\
  errors
    (trace (dispatch flash_retired_over_quota MakeFlashcards []
                     "gemini-pro" photosynthesis None))
  = ["Error: 429 quota exceeded"] /\
  infos
    (trace (dispatch flash_retired_over_quota MakeFlashcards []
                     "gemini-pro" photosynthesis None))
  = ["Try selecting a different model from the sidebar dropdown."] /\
  rendered
    (trace (dispatch flash_retired_over_quota MakeFlashcards []
                     "gemini-pro" photosynthesis None)) = [] /\
  exists tail,
    trace (dispatch flash_retired_over_quota MakeFlashcards []
                    "gemini-pro" photosynthesis None)
    = StSpinner "Processing... (this may take 10-30 seconds)"
      :: map CallGenerativeModel ["gemini-1.5-flash"]
      ++ [CallGenerativeModel "gemini-1.5-pro";
          StSidebarSuccess "Using model: gemini-1.5-pro";
          CallGenerateContent "gemini-1.5-pro"
            (payload_of MakeFlashcards photosynthesis None)]
      ++ tail.
Proof.
  destruct (exception_is_reported flash_retired_over_quota MakeFlashcards []
              "gemini-pro" photosynthesis None
              (Exception "429 quota exceeded") eq_refl)
    as [Hreported Hfallback].
  do 3 (split; [reflexivity|]).
  destruct Hreported as (Herrors & Hinfos & Hrendered & _).
  { right. exists "gemini-1.5-pro". split; reflexivity. }
  split; [exact Herrors|]. split; [exact Hinfos|]. split; [exact Hrendered|].
  exact (Hfallback ["gemini-1.5-flash"] "gemini-1.5-pro"
           ["gemini-1.0-pro"; "gemini-pro"] "gemini-1.5-pro"
           eq_refl eq_refl eq_refl eq_refl).
Defined.

Lemma quiz_instruction_first_witness :
  exists rest,
    build_final_input (label GenerateQuiz) photosynthesis (Some 3)
    = (ret (PText quiz_instruction :: rest) : @script string nat _) /\
    generate_calls
      (trace (dispatch healthy GenerateQuiz catalog "gemini-1.5-flash"
                       photosynthesis (Some 3)))
    = [("models/gemini-1.5-flash", PText quiz_instruction :: rest)].
Proof.
  destruct (quiz_instruction_first healthy catalog "gemini-1.5-flash"
              photosynthesis (Some 3)) as (rest & Hbuilt & Hcalls & _).
  exists rest. split; [exact Hbuilt|exact Hcalls].
Defined.

Lemma catalog_selection_is_used_witness :
  result (get_available_models healthy) = Returns catalog /\
  nonempty catalog = true /\
  result (input_section healthy (Some 3)) = Returns (Some 3) /\
  missing_input "" (Some 3) = false /\
  exists d,
    find (fun d => String.eqb (display_name d)
                     (selectbox (map display_name catalog) 1)) catalog
    = Some d /\
    model_calls (trace (app healthy (click GenerateQuiz 1 "" (Some 3))))
    = [full_name d] /\
    announcements (trace (app healthy (click GenerateQuiz 1 "" (Some 3))))
    = [].
Proof.
  do 4 (split; [reflexivity|]).
  apply (catalog_selection_is_used healthy (click GenerateQuiz 1 "" (Some 3))
           catalog (Some 3)); reflexivity.
Defined.

(** ** Concrete runs for the further properties *)

Lemma short_text_sent_whole_witness :
  (0 < PyStr.len full_text <= 10000)%Z /\
  build_final_input (label ExplainConcept) full_text None
  = (ret (PText (instruction ExplainConcept) :: PText full_text
          :: image_part None) : @script string nat _) /\
  generate_calls
    (trace (dispatch healthy ExplainConcept catalog "gemini-1.5-flash"
                     full_text None))
  = match result (select_model healthy catalog "gemini-1.5-flash") with
    | Returns m =>
        [(m, PText (instruction ExplainConcept) :: PText full_text
             :: image_part None)]
    | _ => []
    end.
Proof.
  split.
  - vm_compute. split; [reflexivity|discriminate].
  - apply (short_text_sent_whole healthy ExplainConcept catalog
             "gemini-1.5-flash" full_text None).
    vm_compute. split; [reflexivity|discriminate].
Defined.

Lemma display_name_strips_prefix_witness :
  no_slash "gemini-1.5-flash" = true /\
  display_name_of "gemini-1.5-flash" = "gemini-1.5-flash" /\
  display_name_of ("models/" ++ "gemini-1.5-flash") = "gemini-1.5-flash".
Proof.
  split; [reflexivity|].
  apply (display_name_strips_prefix "gemini-1.5-flash"). reflexivity.
Defined.

Lemma result_comes_from_generation_witness :
  In (StMarkdown "answer of models/gemini-1.5-pro")
     (trace (dispatch healthy GenerateQuiz catalog "gemini-1.5-pro"
                      photosynthesis (Some 3))) /\
  exists m r,
    generate_calls
      (trace (dispatch healthy GenerateQuiz catalog "gemini-1.5-pro"
                       photosynthesis (Some 3)))
    = [(m, payload_of GenerateQuiz photosynthesis (Some 3))] /\
    generate_content healthy m (payload_of GenerateQuiz photosynthesis (Some 3))
    = inr r /\
    "answer of models/gemini-1.5-pro" = text r.
Proof.
  assert (Hshown :
            In (StMarkdown "answer of models/gemini-1.5-pro")
               (trace (dispatch healthy GenerateQuiz catalog "gemini-1.5-pro"
                                photosynthesis (Some 3)))).
  { vm_compute. do 4 right. left. reflexivity. }
  split; [exact Hshown|].
  exact (result_comes_from_generation healthy GenerateQuiz catalog
           "gemini-1.5-pro" photosynthesis (Some 3) _ Hshown).
Defined.

Lemma fallback_attempts_in_order_witness :
  missing_input photosynthesis (@None nat) = false /\
  hd_error
    (model_calls
       (trace (dispatch flash_retired GenerateQuiz [] "gemini-pro"
                        photosynthesis None)))
  = Some "gemini-1.5-flash" /\
  exists rest,
    model_names_to_try
    = model_calls
        (trace (dispatch flash_retired GenerateQuiz [] "gemini-pro"
                         photosynthesis None)) ++ rest.
Proof.
  split; [reflexivity|].
  apply (fallback_attempts_in_order flash_retired GenerateQuiz "gemini-pro"
           photosynthesis None).
  reflexivity.
Defined.

Lemma unknown_selection_is_reported_witness :
  missing_input photosynthesis (@None nat) = false /\
  nonempty catalog = true /\
  find (fun d => String.eqb (display_name d) "gemini-ultra") catalog = None /\
  dispatch healthy ExplainConcept catalog "gemini-ultra" photosynthesis None
  = ([StSpinner "Processing... (this may take 10-30 seconds)";
      StError "Error: ";
      StInfo "Try selecting a different model from the sidebar dropdown."],
     Returns tt).
Proof.
  do 3 (split; [reflexivity|]).
  apply (unknown_selection_is_reported healthy ExplainConcept catalog
           "gemini-ultra" photosynthesis None); reflexivity.
Defined.

Lemma picked_option_selects_its_entry_witness :
  NoDup (map display_name catalog) /\
  nth_error catalog 1 = Some (descriptor_of pro) /\
  select_model healthy catalog (selected catalog 1)
  = ([CallGenerativeModel "models/gemini-1.5-pro"],
     Returns "models/gemini-1.5-pro").
Proof.
  assert (Hnd : NoDup (map display_name catalog)).
  { constructor.
    - simpl. intros [H|[]]. discriminate H.
    - constructor; [intros []|constructor]. }
  split; [exact Hnd|]. split; [reflexivity|].
  exact (picked_option_selects_its_entry healthy catalog 1 (descriptor_of pro)
           Hnd eq_refl).
Defined.

Lemma unclicked_run_is_idle_witness :
  let ui := {| choice := ExplainConcept; model_pick := 0;
               text_input := photosynthesis; image_input := Some 3;
               start_processing := false |} in
  start_processing ui = false /\
  model_calls (trace (app flash_retired ui)) = [] /\
  generate_calls (trace (app flash_retired ui)) = [] /\
  rendered (trace (app flash_retired ui)) = [] /\
  announcements (trace (app flash_retired ui)) = [].
Proof.
  intros ui. split; [reflexivity|].
  apply (unclicked_run_is_idle flash_retired ui). reflexivity.
Defined.

Lemma undecodable_image_aborts_witness :
  image_input (click ExplainConcept 0 photosynthesis (Some 13)) = Some 13 /\
  Image_open corrupt_upload 13 = inl (Exception "cannot identify image file") /\
  result (app corrupt_upload (click ExplainConcept 0 photosynthesis (Some 13)))
  = Raises (Exception "cannot identify image file") /\
  model_calls
    (trace (app corrupt_upload
                (click ExplainConcept 0 photosynthesis (Some 13)))) = [] /\
  generate_calls
    (trace (app corrupt_upload
                (click ExplainConcept 0 photosynthesis (Some 13)))) = [] /\
  rendered
    (trace (app corrupt_upload
                (click ExplainConcept 0 photosynthesis (Some 13)))) = [].
Proof.
  do 2 (split; [reflexivity|]).
  apply (undecodable_image_aborts corrupt_upload
           (click ExplainConcept 0 photosynthesis (Some 13)) 13
           (Exception "cannot identify image file")); reflexivity.
Defined.

Lemma only_image_errors_escape_witness :
  result (app corrupt_upload (click MakeFlashcards 1 "" (Some 14)))
  = Raises (Exception "image file is truncated") /\
  exists file,
    image_input (click MakeFlashcards 1 "" (Some 14)) = Some file /\
    (Image_open corrupt_upload file
     = inl (Exception "image file is truncated") \/
     exists img,
       Image_open corrupt_upload file = inr img /\
       st_image corrupt_upload img
       = inl (Exception "image file is truncated")).
Proof.
  split; [reflexivity|].
  apply (only_image_errors_escape corrupt_upload
           (click MakeFlashcards 1 "" (Some 14))
           (Exception "image file is truncated")).
  reflexivity.
Defined.
